(** * Student attendance backend ([backend/app.py])

    A shallow embedding of the Flask handlers of [backend/app.py] and of the
    identifier validator they share, together with the properties of the
    specification that concern them.

    - A value decoded from a JSON request body is a [json]; a handler starts
      from the value that [request.json] returned.
    - A Python expression that may raise is an [outcome]; an exception that
      no [except] clause catches ends the request ([Unhandled], which Flask
      reports as a server error).
    - A handler takes the request and the three collections and returns the
      response and the collections afterwards; a write made before a handler
      leaves early stays made.
    - The libraries under the handlers are modelled as far as the handlers
      depend on them: [ObjectId] and [bytes.fromhex] in full, dates as
      millisecond counts with the range check of [datetime] arithmetic, the
      attendance collection as the list of documents that [update_one]
      builds.  What the handlers only pass through (the date parser, the
      rendering of dates and values, equality queries on client-supplied
      fields, what the store can encode) is a parameter, [Platform]. *)

From Stdlib Require Import String Ascii List ZArith NArith Bool Lia Wf_nat.
Import ListNotations.

Local Open Scope string_scope.
Local Open Scope list_scope.

(** ** Python values and exceptions *)

(** A value decoded by [request.json].  Numbers are represented by integers
    (a float is tested against zero and rejected as a container on the very
    same paths); an object keeps its members in insertion order, the first
    binding of a key being the one a lookup finds. *)
#[local] Set Warnings "-register-all".
Inductive json : Type :=
| JNull
| JBool (b : bool)
| JNum (n : Z)
| JStr (s : string)
| JArr (items : list json)
| JObj (members : list (string * json)).

(** The exception classes that the modelled code paths can raise. *)
Inductive exn : Type :=
| TypeError
| ValueError
| KeyError
| AttributeError
| OverflowError
| InvalidId
| StoreError.

Inductive outcome (A : Type) : Type :=
| Return (a : A)
| Raise (e : exn).
Arguments Return {A} a.
Arguments Raise {A} e.

Definition obind {A B} (o : outcome A) (k : A -> outcome B) : outcome B :=
  match o with
  | Return a => k a
  | Raise e => Raise e
  end.

Notation "'try!' x <- o 'in' k" := (obind o (fun x => k))
  (at level 10, x name, o at level 100, k at level 200,
   format "'try!'  x  <-  o  'in' '//' k").

(** [bool(v)]. *)
Definition truthy (v : json) : bool :=
  match v with
  | JNull => false
  | JBool b => b
  | JNum n => negb (n =? 0)%Z
  | JStr s => negb (s =? "")
  | JArr items => match items with [] => false | _ :: _ => true end
  | JObj members => match members with [] => false | _ :: _ => true end
  end.

Fixpoint lookup (k : string) (members : list (string * json)) : option json :=
  match members with
  | [] => None
  | (k', v) :: rest => if k' =? k then Some v else lookup k rest
  end.

Fixpoint is_prefix (p s : string) : bool :=
  match p, s with
  | EmptyString, _ => true
  | String a p', String b s' => Ascii.eqb a b && is_prefix p' s'
  | String _ _, EmptyString => false
  end.

(** [p in s] for two strings. *)
Fixpoint is_substring (p s : string) : bool :=
  is_prefix p s ||
  match s with
  | EmptyString => false
  | String _ s' => is_substring p s'
  end.

(** [k in c] for a string [k]: key membership in a dict, element
    membership in a list, substring test in a string, [TypeError] on the
    values that are not containers. *)
Definition py_in (k : string) (c : json) : outcome bool :=
  match c with
  | JObj members => Return (match lookup k members with Some _ => true | None => false end)
  | JArr items =>
      Return (existsb (fun x => match x with JStr s => s =? k | _ => false end) items)
  | JStr s => Return (is_substring k s)
  | JNull | JBool _ | JNum _ => Raise TypeError
  end.

(** [c[k]] for a string [k]. *)
Definition py_getitem (c : json) (k : string) : outcome json :=
  match c with
  | JObj members =>
      match lookup k members with
      | Some v => Return v
      | None => Raise KeyError
      end
  | _ => Raise TypeError
  end.

(** [c.get(k, default)]. *)
Definition py_get (c : json) (k : string) (default : json) : outcome json :=
  match c with
  | JObj members =>
      match lookup k members with
      | Some v => Return v
      | None => Return default
      end
  | _ => Raise AttributeError
  end.

(** [all(field in c and c[field] for field in fields)]: the generator is
    consumed from the left and stops at the first falsy item. *)
Fixpoint all_present (c : json) (fields : list string) : outcome bool :=
  match fields with
  | [] => Return true
  | field :: rest =>
      try! present <- py_in field c in
      if present then
        try! v <- py_getitem c field in
        if truthy v then all_present c rest else Return false
      else Return false
  end.

Fixpoint chars (s : string) : list json :=
  match s with
  | EmptyString => []
  | String a s' => JStr (String a EmptyString) :: chars s'
  end.

(** The items that [for rec in c] visits. *)
Definition py_iter (c : json) : outcome (list json) :=
  match c with
  | JArr items => Return items
  | JStr s => Return (chars s)
  | JObj members => Return (map (fun kv => JStr (fst kv)) members)
  | JNull | JBool _ | JNum _ => Raise TypeError
  end.

(** ** Identifiers

    A [string] is read as a sequence of characters; a character outside
    ASCII is neither a digit nor whitespace below, so a string that holds one
    is rejected whatever length is counted for it. *)

(** The twelve bytes held by an [ObjectId]. *)
Definition bytes : Type := list N.

(** [_PyLong_DigitValue]: the value of an alphanumeric character as a digit,
    37 for every other character. *)
Definition PyLong_DigitValue (c : ascii) : N :=
  let n := N_of_ascii c in
  if ((48 <=? n) && (n <=? 57))%N then (n - 48)%N
  else if ((97 <=? n) && (n <=? 122))%N then (n - 87)%N
  else if ((65 <=? n) && (n <=? 90))%N then (n - 55)%N
  else 37%N.

(** [Py_ISSPACE]: space, tab, line feed, vertical tab, form feed, carriage
    return. *)
Definition Py_ISSPACE (c : ascii) : bool :=
  let n := N_of_ascii c in
  (((9 <=? n) && (n <=? 13)) || (n =? 32))%N.

(** [bytes.fromhex]: runs of ASCII whitespace are skipped before each pair of
    hexadecimal digits; anything else raises [ValueError]. *)
Fixpoint fromhex (s : string) : outcome bytes :=
  match s with
  | EmptyString => Return []
  | String c rest =>
      if Py_ISSPACE c then fromhex rest
      else
        let top := PyLong_DigitValue c in
        if (16 <=? top)%N then Raise ValueError
        else
          match rest with
          | EmptyString => Raise ValueError
          | String c' rest' =>
              let bot := PyLong_DigitValue c' in
              if (16 <=? bot)%N then Raise ValueError
              else
                try! tail <- fromhex rest' in
                Return ((16 * top + bot)%N :: tail)
          end
  end.

(** What [ObjectId(oid)] builds: an identifier read from its argument, or,
    for [None], a freshly generated one. *)
Inductive objectid : Type :=
| FromHex (binary : bytes)
| Generated.

(** [bson.objectid.ObjectId(oid)] on a decoded JSON value.  A string must
    have 24 characters and be accepted by [bytes.fromhex]; the failure of
    either is [InvalidId]; a value of any other type is a [TypeError]. *)
Definition ObjectId (oid : json) : outcome objectid :=
  match oid with
  | JNull => Return Generated
  | JStr s =>
      if (String.length s =? 24)%nat then
        match fromhex s with
        | Return b => Return (FromHex b)
        | Raise _ => Raise InvalidId
        end
      else Raise InvalidId
  | JBool _ | JNum _ | JArr _ | JObj _ => Raise TypeError
  end.

(** [is_valid_objectId]: the bare [except] turns every exception of the
    constructor into [False]. *)
Definition is_valid_objectId (id_string : json) : outcome bool :=
  match (try! _ <- ObjectId id_string in Return true) with
  | Return b => Return b
  | Raise _ => Return false
  end.

Fixpoint hex_of_bytes (b : bytes) : string :=
  match b with
  | [] => ""
  | x :: rest =>
      let digit (d : N) : ascii :=
        if (d <? 10)%N then ascii_of_N (48 + d) else ascii_of_N (87 + d) in
      String (digit (x / 16)%N) (String (digit (x mod 16)%N) (hex_of_bytes rest))
  end.

(** [str(ObjectId)]: the lower-case hexadecimal rendering of the bytes. *)
Definition str_of_binary (b : bytes) : string := hex_of_bytes b.

(** The identifier form named by the specification: 24 characters, each a
    hexadecimal digit. *)
Definition is_hex_digit (c : ascii) : bool := (PyLong_DigitValue c <? 16)%N.

Fixpoint all_hex (s : string) : bool :=
  match s with
  | EmptyString => true
  | String c rest => is_hex_digit c && all_hex rest
  end.

Definition is_hex24 (s : string) : bool :=
  (String.length s =? 24)%nat && all_hex s.

(** ** Dates *)

(** A [datetime] is counted in milliseconds, the resolution at which the
    store keeps dates; midnight of the day of proleptic ordinal [d] is
    [d * ms_per_day]. *)
Definition datetime : Type := Z.
Definition ms_per_day : Z := 86400000.
Definition MAXORDINAL : Z := 3652059.

Definition midnight (ordinal : Z) : datetime := (ordinal * ms_per_day)%Z.
Definition toordinal (t : datetime) : Z := (t / ms_per_day)%Z.

(** [t + timedelta(days=n)]: a result outside [date.min .. date.max] raises
    [OverflowError]. *)
Definition add_days (t : datetime) (n : Z) : outcome datetime :=
  let days := (toordinal t + n)%Z in
  if ((0 <? days) && (days <=? MAXORDINAL))%Z
  then Return (t + n * ms_per_day)%Z
  else Raise OverflowError.

(** ** The document store *)

(** The [_id] of a student or course document: assigned on insertion, or
    supplied by the client in the inserted document. *)
Inductive doc_key : Type :=
| KeyOid (binary : bytes)
| KeyJson (v : json).

Record document : Type := {
  doc_id : doc_key;
  doc_fields : list (string * json)
}.

(** A document of the attendance collection, as [update_one] builds it. *)
Record attendance_record : Type := {
  att_id : bytes;
  att_student_id : bytes;
  att_course_id : bytes;
  att_date : datetime;
  att_status : json;
  att_notes : json
}.

Record database : Type := {
  students_collection : list document;
  courses_collection : list document;
  attendance_collection : list attendance_record;
  issued : nat
}.

(** The libraries and the store the handlers call into.  Their behaviour is
    not fixed by [app.py]; the handlers are modelled for any of them. *)
Class Platform : Type := {
  (** [datetime.strptime(s, '%Y-%m-%d')]: the proleptic ordinal of the day
      read, [None] when the call raises [ValueError]. *)
  strptime_Ymd : string -> option Z;
  (** [datetime.isoformat()]. *)
  isoformat : datetime -> string;
  (** [str(v)] for a decoded value that is not a string. *)
  py_repr : json -> string;
  (** [collection.find_one({field: value})]. *)
  find_one_field : string -> json -> list document -> outcome (option document);
  (** Whether the driver can encode a value and the store takes it. *)
  bson_encodable : json -> bool;
  (** Whether the store takes a new document into a collection. *)
  insert_accepted : list (string * json) -> list document -> bool;
  (** The identifier the store assigns to the [n]-th document it creates. *)
  new_oid : nat -> bytes
}.

Fixpoint bytes_eqb (a b : bytes) : bool :=
  match a, b with
  | [], [] => true
  | x :: a', y :: b' => (x =? y)%N && bytes_eqb a' b'
  | _, _ => false
  end.

Definition has_oid (b : bytes) (d : document) : bool :=
  match doc_id d with
  | KeyOid b' => bytes_eqb b' b
  | KeyJson _ => false
  end.

(** [collection.find_one({"_id": oid})], reduced to what the handlers test:
    the bytes of the identifier when a document carries it.  A freshly
    generated identifier is carried by no document. *)
Definition find_one_by_id (docs : list document) (oid : objectid) : option bytes :=
  match oid with
  | FromHex b => if existsb (has_oid b) docs then Some b else None
  | Generated => None
  end.

Definition same_triple (s c : bytes) (d : datetime) (r : attendance_record) : bool :=
  bytes_eqb (att_student_id r) s && bytes_eqb (att_course_id r) c && (att_date r =? d)%Z.

Definition set_fields (status notes : json) (r : attendance_record) : attendance_record :=
  {| att_id := att_id r;
     att_student_id := att_student_id r;
     att_course_id := att_course_id r;
     att_date := att_date r;
     att_status := status;
     att_notes := notes |}.

(** The update half of the upsert: the first record matching the filter gets
    the new fields; [None] when no record matches. *)
Fixpoint update_first (s c : bytes) (d : datetime) (status notes : json)
    (records : list attendance_record) : option (list attendance_record) :=
  match records with
  | [] => None
  | r :: rest =>
      if same_triple s c d r then Some (set_fields status notes r :: rest)
      else option_map (cons r) (update_first s c d status notes rest)
  end.

(** ** Responses and the handler monad *)

Inductive response : Type :=
| Response (body : json) (status : Z)
| Unhandled (e : exn).

Definition error (message : string) : json := JObj [("error", JStr message)].

(** A handler body: it reads and writes the collections, and either goes on
    with a value or leaves with a response ([return jsonify(...)], or an
    exception that nothing catches). *)
Inductive step (A : Type) : Type :=
| Next (a : A)
| Exit (r : response).
Arguments Next {A} a.
Arguments Exit {A} r.

Definition handler (A : Type) : Type := database -> step A * database.

Definition ret {A} (a : A) : handler A := fun db => (Next a, db).

Definition hbind {A B} (m : handler A) (k : A -> handler B) : handler B :=
  fun db =>
    match m db with
    | (Next a, db') => k a db'
    | (Exit r, db') => (Exit r, db')
    end.

Definition respond {A} (body : json) (status : Z) : handler A :=
  fun db => (Exit (Response body status), db).

Definition eval {A} (o : outcome A) : handler A :=
  fun db =>
    match o with
    | Return a => (Next a, db)
    | Raise e => (Exit (Unhandled e), db)
    end.

Definition gets {A} (f : database -> A) : handler A := fun db => (Next (f db), db).

Definition unless (condition : bool) (body : json) (status : Z) : handler unit :=
  if condition then ret tt else respond body status.

Definition found {A} (o : option A) (body : json) (status : Z) : handler A :=
  match o with
  | Some a => ret a
  | None => respond body status
  end.

Definition write (o : database -> outcome database) : handler unit :=
  fun db =>
    match o db with
    | Return db' => (Next tt, db')
    | Raise e => (Exit (Unhandled e), db)
    end.

Definition run (h : handler response) (db : database) : response * database :=
  match h db with
  | (Next r, db') => (r, db')
  | (Exit r, db') => (r, db')
  end.

Section Handlers.

Context {platform : Platform}.

(** [str(v)], as an f-string renders it. *)
Definition format_value (v : json) : string :=
  match v with
  | JStr s => s
  | _ => py_repr v
  end.

(** [datetime.strptime(date_string, '%Y-%m-%d')]. *)
Definition strptime (date_string : json) : outcome datetime :=
  match date_string with
  | JStr s =>
      match strptime_Ymd s with
      | Some ordinal => Return (midnight ordinal)
      | None => Raise ValueError
      end
  | _ => Raise TypeError
  end.

(** [attendance_collection.update_one(filter, {"$set": ...}, upsert=True)]. *)
Definition update_one (s c : bytes) (d : datetime) (status notes : json)
    (db : database) : outcome database :=
  if bson_encodable status && bson_encodable notes then
    match update_first s c d status notes (attendance_collection db) with
    | Some records =>
        Return {| students_collection := students_collection db;
                  courses_collection := courses_collection db;
                  attendance_collection := records;
                  issued := issued db |}
    | None =>
        Return {| students_collection := students_collection db;
                  courses_collection := courses_collection db;
                  attendance_collection :=
                    attendance_collection db ++
                    [{| att_id := new_oid (issued db);
                        att_student_id := s;
                        att_course_id := c;
                        att_date := d;
                        att_status := status;
                        att_notes := notes |}];
                  issued := S (issued db) |}
    end
  else Raise StoreError.

(** [attendance_collection.find({"course_id": oid, "date": {"$gte": start,
    "$lt": end}})]. *)
Definition find_by_course_and_date (oid : objectid) (start stop : datetime)
    (records : list attendance_record) : list attendance_record :=
  match oid with
  | FromHex b =>
      filter (fun r => bytes_eqb (att_course_id r) b
                       && (start <=? att_date r)%Z && (att_date r <? stop)%Z)
             records
  | Generated => []
  end.

(** A record with its identifiers and its date turned into strings. *)
Definition stringify (r : attendance_record) : json :=
  JObj [("_id", JStr (str_of_binary (att_id r)));
        ("student_id", JStr (str_of_binary (att_student_id r)));
        ("course_id", JStr (str_of_binary (att_course_id r)));
        ("date", JStr (isoformat (att_date r)));
        ("status", att_status r);
        ("notes", att_notes r)].

Notation "x <- m ;; k" := (hbind m (fun x => k))
  (at level 100, m at next level, right associativity).
Notation "m ;; k" := (hbind m (fun _ => k))
  (at level 100, right associativity).

(** ** Attendance routes *)

(** [get_all_attendance] ([GET /attendance]). *)
Definition get_all_attendance (db : database) : response :=
  Response (JArr (map stringify (attendance_collection db))) 200.

(** [get_attendance_by_course_and_date]
    ([GET /attendance/<course_id>/<date_str>]).  Only a [ValueError] raised
    under the [try] becomes the date-format response. *)
Definition get_attendance_by_course_and_date (course_id date_str : string)
    (db : database) : response :=
  match is_valid_objectId (JStr course_id) with
  | Raise e => Unhandled e
  | Return false => Response (error "Invalid course_id format") 400
  | Return true =>
      let body :=
        try! start <- strptime (JStr date_str) in
        try! stop <- add_days start 1 in
        try! oid <- ObjectId (JStr course_id) in
        let records := find_by_course_and_date oid start stop (attendance_collection db) in
        Return (Response (JArr (map stringify records)) 200) in
      match body with
      | Return r => r
      | Raise ValueError => Response (error "Invalid date format. Use YYYY-MM-DD") 400
      | Raise e => Unhandled e
      end
  end.

(** The body of the [for rec in data['records']] loop of [mark_attendance]:
    the entry's checks, the upsert, and the entry echoed to the caller. *)
Definition mark_record (course_id : json) (attendance_date : datetime) (rec : json)
    : handler json :=
  complete <- eval (all_present rec ["student_id"; "status"]) ;;
  unless complete (error "Each record must include student_id and status") 400 ;;
  student_id <- eval (py_getitem rec "student_id") ;;
  valid <- eval (is_valid_objectId student_id) ;;
  unless valid (error ("Invalid student_id: " ++ format_value student_id)) 400 ;;
  student_oid <- eval (ObjectId student_id) ;;
  students <- gets students_collection ;;
  s <- found (find_one_by_id students student_oid)
         (error ("Student not found: " ++ format_value student_id)) 404 ;;
  course_oid <- eval (ObjectId course_id) ;;
  courses <- gets courses_collection ;;
  c <- found (find_one_by_id courses course_oid)
         (error ("Course not found: " ++ format_value course_id)) 404 ;;
  status <- eval (py_getitem rec "status") ;;
  notes <- eval (py_get rec "notes" (JStr "")) ;;
  write (update_one s c attendance_date status notes) ;;
  ret (JObj [("student_id", student_id);
             ("course_id", course_id);
             ("date", JStr (isoformat attendance_date));
             ("status", status);
             ("notes", notes)]).

(** The loop itself: entries in input order, [processed] growing by one echo
    per entry. *)
Fixpoint mark_records (course_id : json) (attendance_date : datetime)
    (records : list json) : handler (list json) :=
  match records with
  | [] => ret []
  | rec :: rest =>
      echo <- mark_record course_id attendance_date rec ;;
      processed <- mark_records course_id attendance_date rest ;;
      ret (echo :: processed)
  end.

Definition mark_attendance_body (data : json) : handler response :=
  unless (truthy data) (error "No data provided") 400 ;;
  complete <- eval (all_present data ["course_id"; "date"; "records"]) ;;
  unless complete (error "Missing required fields: course_id, date, records") 400 ;;
  course_id <- eval (py_getitem data "course_id") ;;
  valid <- eval (is_valid_objectId course_id) ;;
  unless valid (error "Invalid course_id") 400 ;;
  date <- eval (py_getitem data "date") ;;
  attendance_date <-
    match strptime date with
    | Raise ValueError => respond (error "Invalid date format. Use YYYY-MM-DD") 400
    | o => eval o
    end ;;
  records <- eval (py_getitem data "records") ;;
  items <- eval (py_iter records) ;;
  processed <- mark_records course_id attendance_date items ;;
  ret (Response (JObj [("message", JStr "Attendance saved successfully");
                       ("processed_records", JArr processed)]) 200).

(** [mark_attendance] ([POST /attendance]). *)
Definition mark_attendance (data : json) (db : database) : response * database :=
  run (mark_attendance_body data) db.

(** ** Student routes *)

(** [d[k] = v]: the binding of [k] is replaced where it stands, or added at
    the end. *)
Fixpoint dict_set (k : string) (v : json) (members : list (string * json))
    : list (string * json) :=
  match members with
  | [] => [(k, v)]
  | (k', v') :: rest =>
      if k' =? k then (k, v) :: rest else (k', v') :: dict_set k v rest
  end.

Fixpoint dict_remove (k : string) (members : list (string * json))
    : list (string * json) :=
  match members with
  | [] => []
  | (k', v') :: rest =>
      if k' =? k then dict_remove k rest else (k', v') :: dict_remove k rest
  end.

(** [students_collection.insert_one(data)]: a document without [_id] is given
    a new identifier; the result is [inserted_id]. *)
Definition insert_one (data : json) (db : database) : outcome (doc_key * database) :=
  match data with
  | JObj members =>
      if insert_accepted members (students_collection db) then
        let '(key, next) :=
          match lookup "_id" members with
          | Some v => (KeyJson v, issued db)
          | None => (KeyOid (new_oid (issued db)), S (issued db))
          end in
        Return (key,
                {| students_collection :=
                     students_collection db ++
                     [{| doc_id := key; doc_fields := dict_remove "_id" members |}];
                   courses_collection := courses_collection db;
                   attendance_collection := attendance_collection db;
                   issued := next |})
      else Raise StoreError
  | _ => Raise TypeError
  end.

Definition str_of_key (k : doc_key) : string :=
  match k with
  | KeyOid b => str_of_binary b
  | KeyJson v => format_value v
  end.

Definition add_student_body (data : json) : handler response :=
  unless (truthy data) (error "No data provided") 400 ;;
  complete <- eval (all_present data ["student_id"; "first_name"; "last_name"; "email"]) ;;
  unless complete
    (error "Missing required fields: student_id, first_name, last_name, email") 400 ;;
  student_id <- eval (py_getitem data "student_id") ;;
  students <- gets students_collection ;;
  same_id <- eval (find_one_field "student_id" student_id students) ;;
  unless (match same_id with Some _ => false | None => true end)
    (error "Student with this ID already exists") 409 ;;
  email <- eval (py_getitem data "email") ;;
  students <- gets students_collection ;;
  same_email <- eval (find_one_field "email" email students) ;;
  unless (match same_email with Some _ => false | None => true end)
    (error "Student with this email already exists") 409 ;;
  inserted_id <- (fun db =>
                    match insert_one data db with
                    | Return (key, db') => (Next key, db')
                    | Raise e => (Exit (Unhandled e), db)
                    end) ;;
  match data with
  | JObj members =>
      ret (Response (JObj (dict_set "_id" (JStr (str_of_key inserted_id)) members)) 201)
  | _ => eval (Raise TypeError)
  end.

(** [add_student] ([POST /students]). *)
Definition add_student (data : json) (db : database) : response * database :=
  run (add_student_body data) db.

End Handlers.

(** ** Listing routes and course creation *)

Section Listings.

Context {platform : Platform}.

Notation "x <- m ;; k" := (hbind m (fun x => k))
  (at level 100, m at next level, right associativity).
Notation "m ;; k" := (hbind m (fun _ => k))
  (at level 100, right associativity).

(** A student or course document as the driver returns it, after
    [doc['_id'] = str(doc['_id'])]: the identifier comes first. *)
Definition with_str_id (d : document) : json :=
  JObj (("_id", JStr (str_of_key (doc_id d))) :: doc_fields d).

(** [get_students] ([GET /students]). *)
Definition get_students (db : database) : response :=
  Response (JArr (map with_str_id (students_collection db))) 200.

(** [get_courses] ([GET /courses]). *)
Definition get_courses (db : database) : response :=
  Response (JArr (map with_str_id (courses_collection db))) 200.

(** [courses_collection.insert_one(data)]. *)
Definition insert_one_course (data : json) (db : database) : outcome (doc_key * database) :=
  match data with
  | JObj members =>
      if insert_accepted members (courses_collection db) then
        let '(key, next) :=
          match lookup "_id" members with
          | Some v => (KeyJson v, issued db)
          | None => (KeyOid (new_oid (issued db)), S (issued db))
          end in
        Return (key,
                {| students_collection := students_collection db;
                   courses_collection :=
                     courses_collection db ++
                     [{| doc_id := key; doc_fields := dict_remove "_id" members |}];
                   attendance_collection := attendance_collection db;
                   issued := next |})
      else Raise StoreError
  | _ => Raise TypeError
  end.

Definition add_course_body (data : json) : handler response :=
  unless (truthy data) (error "No data provided") 400 ;;
  complete <- eval (all_present data ["course_code"; "course_name"]) ;;
  unless complete (error "Missing required fields: course_code, course_name") 400 ;;
  course_code <- eval (py_getitem data "course_code") ;;
  courses <- gets courses_collection ;;
  same_code <- eval (find_one_field "course_code" course_code courses) ;;
  unless (match same_code with Some _ => false | None => true end)
    (error "Course with this code already exists") 409 ;;
  inserted_id <- (fun db =>
                    match insert_one_course data db with
                    | Return (key, db') => (Next key, db')
                    | Raise e => (Exit (Unhandled e), db)
                    end) ;;
  match data with
  | JObj members =>
      ret (Response (JObj (dict_set "_id" (JStr (str_of_key inserted_id)) members)) 201)
  | _ => eval (Raise TypeError)
  end.

(** [add_course] ([POST /courses]). *)
Definition add_course (data : json) (db : database) : response * database :=
  run (add_course_body data) db.

End Listings.

(** ** A reference platform

    One concrete choice of the libraries and of the store, on which the
    handlers can be run: CPython's reading of ['%Y-%m-%d'] on ASCII input and
    its [isoformat], a [repr] without escapes, a store that matches a field
    by equality of values, takes every value, refuses a second document with
    a client-supplied [_id] already in use, and numbers the documents it
    creates. *)
Module Reference.

Definition digit_of (c : ascii) : option Z :=
  let n := N_of_ascii c in
  if ((48 <=? n) && (n <=? 57))%N then Some (Z.of_N n - 48)%Z else None.

Definition is_dash (c : ascii) : bool := Ascii.eqb c "-".

(** The month group [1[0-2]|0[1-9]|[1-9]] followed by the dash. *)
Definition read_month (s : string) : option (Z * string) :=
  match s with
  | String a (String b (String c rest)) =>
      match digit_of a, digit_of b with
      | Some x, Some y =>
          if is_dash c && (((x =? 1) && (y <=? 2)) || ((x =? 0) && (1 <=? y)))%Z
          then Some (10 * x + y, rest)%Z else None
      | Some x, None =>
          if is_dash b && (1 <=? x)%Z then Some (x, String c rest) else None
      | None, _ => None
      end
  | String a (String b rest) =>
      match digit_of a with
      | Some x => if is_dash b && (1 <=? x)%Z then Some (x, rest) else None
      | None => None
      end
  | _ => None
  end.

(** The day group [3[01]|[12]\d|0[1-9]|[1-9]| [1-9]], which must end the
    string. *)
Definition read_day (s : string) : option Z :=
  match s with
  | String a EmptyString =>
      match digit_of a with
      | Some x => if (1 <=? x)%Z then Some x else None
      | None => None
      end
  | String a (String b EmptyString) =>
      match digit_of a, digit_of b with
      | Some x, Some y =>
          if (((x =? 3) && (y <=? 1)) || (x =? 1) || (x =? 2) || ((x =? 0) && (1 <=? y)))%Z
          then Some (10 * x + y)%Z else None
      | None, Some y =>
          if Ascii.eqb a " " && (1 <=? y)%Z then Some y else None
      | _, None => None
      end
  | _ => None
  end.

Definition is_leap (year : Z) : bool :=
  ((year mod 4 =? 0) && (negb (year mod 100 =? 0) || (year mod 400 =? 0)))%Z.

Definition DAYS_IN_MONTH : list Z := [31; 28; 31; 30; 31; 30; 31; 31; 30; 31; 30; 31]%Z.
Definition DAYS_BEFORE_MONTH : list Z :=
  [0; 31; 59; 90; 120; 151; 181; 212; 243; 273; 304; 334]%Z.

Definition days_in_month (year month : Z) : Z :=
  if ((month =? 2) && is_leap year)%Z then 29%Z
  else nth (Z.to_nat (month - 1)) DAYS_IN_MONTH 0%Z.

Definition days_before_month (year month : Z) : Z :=
  (nth (Z.to_nat (month - 1)) DAYS_BEFORE_MONTH 0
   + if (2 <? month) && is_leap year then 1 else 0)%Z.

Definition days_before_year (year : Z) : Z :=
  let y := (year - 1)%Z in
  (y * 365 + y / 4 - y / 100 + y / 400)%Z.

Definition ymd2ord (year month day : Z) : Z :=
  (days_before_year year + days_before_month year month + day)%Z.

Definition strptime_Ymd (s : string) : option Z :=
  match s with
  | String a (String b (String c (String d (String e rest)))) =>
      match digit_of a, digit_of b, digit_of c, digit_of d with
      | Some y1, Some y2, Some y3, Some y4 =>
          let year := (1000 * y1 + 100 * y2 + 10 * y3 + y4)%Z in
          if is_dash e then
            match read_month rest with
            | Some (month, rest') =>
                match read_day rest' with
                | Some day =>
                    if ((1 <=? year) && (day <=? days_in_month year month))%Z
                    then Some (ymd2ord year month day) else None
                | None => None
                end
            | None => None
            end
          else None
      | _, _, _, _ => None
      end
  | _ => None
  end.

Definition ord2ymd (ordinal : Z) : Z * Z * Z :=
  let n := (ordinal - 1)%Z in
  let n400 := (n / 146097)%Z in
  let n := (n mod 146097)%Z in
  let n100 := (n / 36524)%Z in
  let n := (n mod 36524)%Z in
  let n4 := (n / 1461)%Z in
  let n := (n mod 1461)%Z in
  let n1 := (n / 365)%Z in
  let n := (n mod 365)%Z in
  let year := (n400 * 400 + 1 + n100 * 100 + n4 * 4 + n1)%Z in
  if ((n1 =? 4) || (n100 =? 4))%Z then (year - 1, 12, 31)%Z
  else
    let leapyear := ((n1 =? 3) && (negb (n4 =? 24) || (n100 =? 3)))%Z in
    let month := Z.shiftr (n + 50) 5 in
    let preceding :=
      (nth (Z.to_nat (month - 1)) DAYS_BEFORE_MONTH 0
       + if (2 <? month) && leapyear then 1 else 0)%Z in
    if (n <? preceding)%Z then
      let month := (month - 1)%Z in
      let preceding :=
        (preceding - (nth (Z.to_nat (month - 1)) DAYS_IN_MONTH 0
                      + if (month =? 2) && leapyear then 1 else 0))%Z in
      (year, month, n - preceding + 1)%Z
    else (year, month, n - preceding + 1)%Z.

Definition decimal_digit (n : Z) : ascii := ascii_of_N (48 + Z.to_N (n mod 10)).

(** [n] in decimal, padded with zeros to [width] digits. *)
Fixpoint padded (width : nat) (n : Z) : string :=
  match width with
  | O => ""
  | S w => (padded w (n / 10) ++ String (decimal_digit n) "")%string
  end.

Definition isoformat (t : datetime) : string :=
  let '(year, month, day) := ord2ymd (toordinal t) in
  let ms := (t mod ms_per_day)%Z in
  let base :=
    (padded 4 year ++ "-" ++ padded 2 month ++ "-" ++ padded 2 day ++ "T"
     ++ padded 2 (ms / 3600000) ++ ":" ++ padded 2 (ms / 60000 mod 60) ++ ":"
     ++ padded 2 (ms / 1000 mod 60))%string in
  if (ms mod 1000 =? 0)%Z then base
  else (base ++ "." ++ padded 6 (ms mod 1000 * 1000))%string.

Fixpoint json_eqb (x y : json) : bool :=
  match x, y with
  | JNull, JNull => true
  | JBool a, JBool b => Bool.eqb a b
  | JNum a, JNum b => (a =? b)%Z
  | JStr a, JStr b => (a =? b)%string
  | JArr a, JArr b =>
      (fix items (a b : list json) : bool :=
         match a, b with
         | [], [] => true
         | u :: a', v :: b' => json_eqb u v && items a' b'
         | _, _ => false
         end) a b
  | JObj a, JObj b =>
      (fix members (a b : list (string * json)) : bool :=
         match a, b with
         | [], [] => true
         | (k, u) :: a', (l, v) :: b' => (k =? l)%string && json_eqb u v && members a' b'
         | _, _ => false
         end) a b
  | _, _ => false
  end.

Fixpoint decimal (fuel : nat) (n : Z) : string :=
  match fuel with
  | O => ""
  | S f =>
      if (n <? 10)%Z then String (decimal_digit n) ""
      else (decimal f (n / 10) ++ String (decimal_digit n) "")%string
  end.

Fixpoint py_repr (v : json) : string :=
  (match v with
  | JNull => "None"
  | JBool true => "True"
  | JBool false => "False"
  | JNum n =>
      if (n <? 0)%Z then "-" ++ decimal (S (Z.to_nat (Z.log2 (- n)))) (- n)
      else decimal (S (Z.to_nat (Z.log2 n))) n
  | JStr s => "'" ++ s ++ "'"
  | JArr items =>
      "[" ++
      (fix list_items (l : list json) : string :=
         match l with
         | [] => ""
         | [x] => py_repr x
         | x :: rest => py_repr x ++ ", " ++ list_items rest
         end) items ++ "]"
  | JObj members =>
      "{" ++
      (fix dict_items (l : list (string * json)) : string :=
         match l with
         | [] => ""
         | [(k, x)] => "'" ++ k ++ "': " ++ py_repr x
         | (k, x) :: rest => "'" ++ k ++ "': " ++ py_repr x ++ ", " ++ dict_items rest
         end) members ++ "}"
  end)%string.

Definition field_equals (field : string) (value : json) (d : document) : bool :=
  match lookup field (doc_fields d) with
  | Some v => json_eqb v value
  | None => false
  end.

Definition find_one_field (field : string) (value : json) (docs : list document)
    : outcome (option document) :=
  Return (find (field_equals field value) docs).

Definition insert_accepted (members : list (string * json)) (docs : list document) : bool :=
  match lookup "_id" members with
  | None => true
  | Some v =>
      negb (existsb (fun d => match doc_id d with
                              | KeyJson v' => json_eqb v' v
                              | KeyOid _ => false
                              end) docs)
  end.

Definition new_oid (n : nat) : bytes :=
  let k := N.of_nat n in
  [0; 0; 0; 0; 0; 0; 0; 0;
   (k / 16777216) mod 256; (k / 65536) mod 256; (k / 256) mod 256; k mod 256]%N.

#[export] Instance platform : Platform :=
  Build_Platform strptime_Ymd isoformat py_repr find_one_field (fun _ => true)
                 insert_accepted new_oid.

End Reference.

(** ** Vocabulary of the specification *)

(** The character [c] occurs in [s]. *)
Fixpoint occurs (c : ascii) (s : string) : Prop :=
  match s with
  | EmptyString => False
  | String a rest => a = c \/ occurs c rest
  end.

(** The attendance records of one (student, course, date) triple. *)
Definition records_of (s c : bytes) (d : datetime) (records : list attendance_record)
    : list attendance_record :=
  filter (same_triple s c d) records.

(** At most one record per (student, course, date) triple. *)
Definition at_most_one (records : list attendance_record) : Prop :=
  forall s c d, (List.length (records_of s c d records) <= 1)%nat.

(** The body of a [POST /attendance] request. *)
Definition mark_request (course_id date : string) (entries : list json) : json :=
  JObj [("course_id", JStr course_id); ("date", JStr date); ("records", JArr entries)].

(** One entry of its [records] array; [notes] may be left out. *)
Definition entry (student_id : string) (status : json) (notes : option json) : json :=
  JObj (("student_id", JStr student_id) :: ("status", status) ::
        match notes with
        | Some v => [("notes", v)]
        | None => []
        end).

Definition notes_or_default (notes : option json) : json :=
  match notes with
  | Some v => v
  | None => JStr ""
  end.

(** The success body of [POST /attendance]. *)
Definition saved (processed : list json) : json :=
  JObj [("message", JStr "Attendance saved successfully");
        ("processed_records", JArr processed)].

(** The character of a hexadecimal digit, in lower case. *)
Definition hex_digit_char (d : N) : ascii :=
  if (d <? 10)%N then ascii_of_N (48 + d) else ascii_of_N (87 + d).

(** What identifies an attendance document and places it: its [_id] and its
    (student, course, date) triple. *)
Definition record_key (r : attendance_record) : bytes * bytes * bytes * datetime :=
  (att_id r, att_student_id r, att_course_id r, att_date r).

(** [s.lower()] on ASCII. *)
Definition lower_char (c : ascii) : ascii :=
  let n := N_of_ascii c in
  if ((65 <=? n) && (n <=? 90))%N then ascii_of_N (n + 32) else c.

Fixpoint lower (s : string) : string :=
  match s with
  | EmptyString => EmptyString
  | String c rest => String (lower_char c) (lower rest)
  end.

(** The status code of a response, when the handler returned one. *)
Definition status_of (r : response) : option Z :=
  match r with
  | Response _ status => Some status
  | Unhandled _ => None
  end.

(** The entry echoed for a processed record. *)
Definition echo (course_id : string) (t : string) (student_id : string)
    (status : json) (notes : option json) : json :=
  JObj [("student_id", JStr student_id); ("course_id", JStr course_id);
        ("date", JStr t); ("status", status); ("notes", notes_or_default notes)].

(** A batch written as (student_id, status, notes) triples. *)
Definition entry_of (e : string * json * option json) : json :=
  let '(student_id, status, notes) := e in entry student_id status notes.

Definition echo_of (course_id t : string) (e : string * json * option json) : json :=
  let '(student_id, status, notes) := e in echo course_id t student_id status notes.

(** An entry that passes the checks made on it: its [student_id] reads as the
    identifier of a stored student, its status is not empty, and the store
    can take its status and notes. *)
Definition markable {platform : Platform} (students : list document)
    (e : string * json * option json) : Prop :=
  let '(student_id, status, notes) := e in
  exists s, ObjectId (JStr student_id) = Return (FromHex s) /\
            existsb (has_oid s) students = true /\
            truthy status = true /\
            bson_encodable status = true /\
            bson_encodable (notes_or_default notes) = true.

(** An entry for another student than the one of identifier [s]. *)
Definition other_student (s : bytes) (e : string * json * option json) : Prop :=
  ObjectId (JStr (fst (fst e))) <> Return (FromHex s).


(** The fields [required] that a request body must carry with a truthy
    value. *)
Definition carries (members : list (string * json)) (required : list string) : bool :=
  forallb (fun field => match lookup field members with
                        | Some v => truthy v
                        | None => false
                        end) required.

(** ** Sample data

    One student and one course, with store-assigned identifiers, and no
    attendance yet. *)
Module Sample.

Definition student_oid : string := "650000000000000000000001".
Definition course_oid : string := "650000000000000000000002".
Definition nobody_oid : string := "65000000000000000000000f".

Definition student_binary : bytes := [101; 0; 0; 0; 0; 0; 0; 0; 0; 0; 0; 1]%N.
Definition course_binary : bytes := [101; 0; 0; 0; 0; 0; 0; 0; 0; 0; 0; 2]%N.

Definition db : database := {|
  students_collection :=
    [{| doc_id := KeyOid student_binary;
        doc_fields := [("student_id", JStr "S001"); ("first_name", JStr "Ada");
                       ("last_name", JStr "Lovelace"); ("email", JStr "ada@example.org")] |}];
  courses_collection :=
    [{| doc_id := KeyOid course_binary;
        doc_fields := [("course_code", JStr "CS101"); ("course_name", JStr "Logic")] |}];
  attendance_collection := [];
  issued := 2
|}.

(** The same with a second student. *)
Definition other_oid : string := "650000000000000000000003".
Definition other_binary : bytes := [101; 0; 0; 0; 0; 0; 0; 0; 0; 0; 0; 3]%N.

Definition classroom : database := {|
  students_collection :=
    students_collection db ++
    [{| doc_id := KeyOid other_binary;
        doc_fields := [("student_id", JStr "S002"); ("first_name", JStr "Grace");
                       ("last_name", JStr "Hopper"); ("email", JStr "grace@example.org")] |}];
  courses_collection := courses_collection db;
  attendance_collection := [];
  issued := 3
|}.

(** Two create requests that collide with nothing stored. *)
Definition new_student : list (string * json) :=
  [("student_id", JStr "S010"); ("first_name", JStr "Alan");
   ("last_name", JStr "Turing"); ("email", JStr "alan@example.org")].

Definition new_course : list (string * json) :=
  [("course_code", JStr "CS102"); ("course_name", JStr "Computability")].

(** A create request that reuses the student's [student_id] under another
    e-mail address. *)
Definition same_student_id : json :=
  JObj [("student_id", JStr "S001"); ("first_name", JStr "Alan");
        ("last_name", JStr "Turing"); ("email", JStr "alan@example.org")].

End Sample.

(** A few runs of the reference platform. *)
Example strptime_leap_day : Reference.strptime_Ymd "2024-02-29" = Some 738945%Z.
Proof. reflexivity. Qed.

Example strptime_no_such_day : Reference.strptime_Ymd "2023-02-29" = None.
Proof. reflexivity. Qed.

Example strptime_last_day : Reference.strptime_Ymd "9999-12-31" = Some MAXORDINAL.
Proof. reflexivity. Qed.

Example isoformat_midnight :
  Reference.isoformat (midnight 738945) = "2024-02-29T00:00:00".
Proof. reflexivity. Qed.

(** * Properties *)

(** ** The identifier validator *)

Section Validator.

Lemma hex_digit_not_space (c : ascii) :
  is_hex_digit c = true -> Py_ISSPACE c = false.
Proof.
  destruct c as [[] [] [] [] [] [] [] []]; vm_compute; congruence.
Qed.

Lemma hex_digit_value (c : ascii) :
  is_hex_digit c = true -> (16 <=? PyLong_DigitValue c)%N = false.
Proof.
  unfold is_hex_digit. intros H.
  apply N.ltb_lt in H. apply N.leb_gt. exact H.
Qed.

(** Strings are consumed two characters at a time. *)
Lemma string_pair_ind (P : string -> Prop) :
  P "" ->
  (forall a, P (String a "")) ->
  (forall a b s, P s -> P (String a (String b s))) ->
  forall s, P s.
Proof.
  intros H0 H1 H2 s.
  assert (both : P s /\ forall a, P (String a s)).
  { induction s as [|c s [IH IH']].
    - split; [exact H0 | exact H1].
    - split; [apply IH' | intros a; apply H2; exact IH]. }
  exact (proj1 both).
Qed.

Lemma fromhex_all_hex (s : string) :
  all_hex s = true -> Nat.even (String.length s) = true ->
  exists b, fromhex s = Return b.
Proof.
  induction s as [| a | a b s IH] using string_pair_ind; intros Hhex Heven.
  - exists []. reflexivity.
  - discriminate Heven.
  - cbn [all_hex] in Hhex.
    apply andb_prop in Hhex as [Ha Hrest].
    apply andb_prop in Hrest as [Hb Hs].
    destruct (IH Hs Heven) as [tail Htail].
    exists ((16 * PyLong_DigitValue a + PyLong_DigitValue b)%N :: tail).
    cbn [fromhex].
    rewrite (hex_digit_not_space a Ha), (hex_digit_value a Ha), (hex_digit_value b Hb).
    rewrite Htail. reflexivity.
Qed.

(** Every 24-character hexadecimal string is accepted. *)
Lemma is_valid_objectId_hex24 (s : string) :
  is_hex24 s = true -> is_valid_objectId (JStr s) = Return true.
Proof.
  unfold is_hex24. intros H.
  apply andb_prop in H as [Hlen Hhex].
  assert (Heven : Nat.even (String.length s) = true).
  { apply Nat.eqb_eq in Hlen. rewrite Hlen. reflexivity. }
  destruct (fromhex_all_hex s Hhex Heven) as [b Hb].
  unfold is_valid_objectId, ObjectId. rewrite Hlen, Hb. reflexivity.
Qed.

(** Every string of another length is rejected, the empty string among
    them. *)
Lemma is_valid_objectId_wrong_length (s : string) :
  String.length s <> 24%nat -> is_valid_objectId (JStr s) = Return false.
Proof.
  intros H. apply Nat.eqb_neq in H.
  unfold is_valid_objectId, ObjectId. rewrite H. reflexivity.
Qed.

Lemma fromhex_rejects_upto (c : ascii) (n : nat) :
  is_hex_digit c = false -> Py_ISSPACE c = false ->
  forall s, (String.length s <= n)%nat -> occurs c s -> exists e, fromhex s = Raise e.
Proof.
  intros Hhex Hspace.
  assert (Hbad : (16 <=? PyLong_DigitValue c)%N = true).
  { unfold is_hex_digit in Hhex. apply N.ltb_ge in Hhex. apply N.leb_le. exact Hhex. }
  induction n as [n IH] using lt_wf_ind.
  intros [|a rest] Hlen Hin; [destruct Hin|].
  cbn [fromhex]. cbn [String.length] in Hlen.
  destruct (Py_ISSPACE a) eqn:Ha.
  - destruct Hin as [-> | Hin]; [congruence|].
    apply (IH (String.length rest)); [lia | lia | exact Hin].
  - cbv zeta.
    destruct (16 <=? PyLong_DigitValue a)%N eqn:Hva; [eexists; reflexivity|].
    destruct Hin as [-> | Hin]; [congruence|].
    destruct rest as [|b rest']; [destruct Hin|].
    destruct (16 <=? PyLong_DigitValue b)%N eqn:Hvb; [eexists; reflexivity|].
    destruct Hin as [-> | Hin]; [congruence|].
    cbn [String.length] in Hlen.
    destruct (IH (String.length rest')) with (s := rest') as [e He]; [lia | lia | exact Hin |].
    rewrite He. eexists; reflexivity.
Qed.

(** Every string holding a character that is neither a hexadecimal digit nor
    ASCII whitespace is rejected. *)
Lemma is_valid_objectId_foreign_character (c : ascii) (s : string) :
  occurs c s -> is_hex_digit c = false -> Py_ISSPACE c = false ->
  is_valid_objectId (JStr s) = Return false.
Proof.
  intros Hin Hhex Hspace.
  unfold is_valid_objectId, ObjectId.
  destruct (String.length s =? 24)%nat; [|reflexivity].
  destruct (fromhex_rejects_upto c (String.length s) Hhex Hspace s (le_n _) Hin) as [e He].
  rewrite He. reflexivity.
Qed.

(** X1.  What the validator does decide on strings: it accepts every string
    of 24 hexadecimal digits, and it rejects the empty string, every string
    whose length is not 24, and every string holding a character that is
    neither a hexadecimal digit nor ASCII whitespace. *)
Theorem is_valid_objectId_on_strings (s : string) :
  (is_hex24 s = true -> is_valid_objectId (JStr s) = Return true) /\
  (String.length s <> 24%nat -> is_valid_objectId (JStr s) = Return false) /\
  (forall ch, occurs ch s -> is_hex_digit ch = false -> Py_ISSPACE ch = false ->
              is_valid_objectId (JStr s) = Return false) /\
  is_valid_objectId (JStr "") = Return false.
Proof.
  split; [apply is_valid_objectId_hex24|].
  split; [apply is_valid_objectId_wrong_length|].
  split; [intros ch; apply is_valid_objectId_foreign_character | reflexivity].
Qed.

Lemma is_valid_objectId_on_strings_run :
  is_valid_objectId (JStr "650000000000000000000002") = Return true /\
  is_valid_objectId (JStr "abc") = Return false /\
  is_valid_objectId (JStr "65000000000000000000000g") = Return false.
Proof.
  split; [|split].
  - apply (proj1 (is_valid_objectId_on_strings "650000000000000000000002")). reflexivity.
  - apply (proj1 (proj2 (is_valid_objectId_on_strings "abc"))). discriminate.
  - apply (proj1 (proj2 (proj2 (is_valid_objectId_on_strings "65000000000000000000000g")))
             "g"%char).
    + cbn. tauto.
    + reflexivity.
    + reflexivity.
Defined.

(** C3 (departure of the code).  The validator answers [True] on a
    24-character string that is not hexadecimal throughout: eight pairs of
    digits, each followed by a blank.  [bytes.fromhex] skips the blanks, so the
    constructor accepts the string (and reads eight bytes out of it). *)
Theorem is_valid_objectId_accepts_blanks :
  String.length "00 00 00 00 00 00 00 00 " = 24%nat /\
  is_hex24 "00 00 00 00 00 00 00 00 " = false /\
  ObjectId (JStr "00 00 00 00 00 00 00 00 ") = Return (FromHex [0; 0; 0; 0; 0; 0; 0; 0]%N) /\
  is_valid_objectId (JStr "00 00 00 00 00 00 00 00 ") = Return true.
Proof. repeat split; reflexivity. Qed.

(** C9.  The validator always returns a boolean and never raises, whatever
    value it is given; it answers [False] exactly when the constructor
    raised.  It reads nothing but its argument. *)
Theorem is_valid_objectId_total (id_string : json) :
  exists b : bool,
    is_valid_objectId id_string = Return b /\
    (b = false <-> exists e, ObjectId id_string = Raise e).
Proof.
  unfold is_valid_objectId.
  destruct (ObjectId id_string) as [oid | e] eqn:H; cbn.
  - exists true. split; [reflexivity|].
    split; [discriminate | intros [e He]; discriminate He].
  - exists false. split; [reflexivity|].
    split; [intros _; exists e; reflexivity | reflexivity].
Qed.

End Validator.

(** ** Python containers *)

Lemma all_present_object (members : list (string * json)) (required : list string) :
  all_present (JObj members) required = Return (carries members required).
Proof.
  induction required as [|field rest IH]; [reflexivity|].
  cbn [all_present carries forallb py_in py_getitem obind].
  destruct (lookup field members) as [v|]; cbn [obind]; [|reflexivity].
  destruct (truthy v); [exact IH | reflexivity].
Qed.

(** Only a dict can carry a required field: a list or a string that holds
    the field's name raises when it is subscripted with it. *)
Lemma all_present_true_is_object (c : json) (field : string) (rest : list string) :
  all_present c (field :: rest) = Return true -> exists members, c = JObj members.
Proof.
  destruct c as [| b | n | s | items | members]; cbn [all_present py_in obind]; try discriminate.
  - destruct (is_substring field s); cbn; discriminate.
  - destruct (existsb _ items); cbn; discriminate.
  - intros _. exists members. reflexivity.
Qed.

Lemma carries_lookup (members : list (string * json)) (required : list string) (field : string) :
  carries members required = true -> In field required ->
  exists v, lookup field members = Some v /\ truthy v = true.
Proof.
  unfold carries. rewrite forallb_forall. intros H Hin.
  specialize (H field Hin).
  destruct (lookup field members) as [v|]; [|discriminate].
  exists v. split; [reflexivity | exact H].
Qed.

Lemma lookup_dict_remove_same (k : string) (members : list (string * json)) :
  lookup k (dict_remove k members) = None.
Proof.
  induction members as [|[k' v] rest IH]; [reflexivity|].
  cbn [dict_remove]. destruct (k' =? k)%string eqn:E; [exact IH|].
  cbn [lookup]. rewrite E. exact IH.
Qed.

Lemma lookup_dict_remove_other (k k' : string) (members : list (string * json)) :
  k' <> k -> lookup k' (dict_remove k members) = lookup k' members.
Proof.
  intros Hne.
  induction members as [|[k0 v] rest IH]; [reflexivity|].
  cbn [dict_remove lookup].
  destruct (k0 =? k)%string eqn:E.
  - apply String.eqb_eq in E. subst k0.
    destruct (k =? k')%string eqn:E'; [apply String.eqb_eq in E'; congruence | exact IH].
  - cbn [lookup]. rewrite IH. reflexivity.
Qed.

(** ** The attendance collection *)

Lemma bytes_eqb_eq (a b : bytes) : bytes_eqb a b = true <-> a = b.
Proof.
  revert b. induction a as [|x a IH]; intros [|y b]; cbn [bytes_eqb]; split;
    try discriminate; try reflexivity.
  - intros H. apply andb_prop in H as [Hx Hab].
    apply N.eqb_eq in Hx. apply IH in Hab. congruence.
  - intros H. injection H as -> ->.
    rewrite N.eqb_refl. cbn. apply IH. reflexivity.
Qed.

Lemma bytes_eqb_refl (a : bytes) : bytes_eqb a a = true.
Proof. apply bytes_eqb_eq. reflexivity. Qed.

Lemma same_triple_spec (s c : bytes) (d : datetime) (r : attendance_record) :
  same_triple s c d r = true <->
  att_student_id r = s /\ att_course_id r = c /\ att_date r = d.
Proof.
  unfold same_triple. rewrite !andb_true_iff, !bytes_eqb_eq, Z.eqb_eq. tauto.
Qed.

Lemma same_triple_set_fields (s c : bytes) (d : datetime) (status notes : json)
    (r : attendance_record) :
  same_triple s c d (set_fields status notes r) = same_triple s c d r.
Proof. reflexivity. Qed.

(** An update keeps every record under the triple it had. *)
Lemma update_first_keeps_triples (s c : bytes) (d : datetime) (status notes : json)
    (records records' : list attendance_record) (s' c' : bytes) (d' : datetime) :
  update_first s c d status notes records = Some records' ->
  List.length (records_of s' c' d' records') = List.length (records_of s' c' d' records).
Proof.
  revert records'.
  induction records as [|r rest IH]; intros records' H; [discriminate|].
  cbn [update_first] in H.
  destruct (same_triple s c d r) eqn:E.
  - injection H as <-. unfold records_of. cbn [filter].
    rewrite same_triple_set_fields. destruct (same_triple s' c' d' r); reflexivity.
  - destruct (update_first s c d status notes rest) as [rest'|]; [|discriminate].
    injection H as <-. unfold records_of in *. cbn [filter].
    destruct (same_triple s' c' d' r); cbn [List.length]; rewrite (IH rest' eq_refl); reflexivity.
Qed.

(** The record updated is the first one of the triple; the others of the
    triple, if any, are left as they were. *)
Lemma update_first_some (s c : bytes) (d : datetime) (status notes : json)
    (records records' : list attendance_record) :
  update_first s c d status notes records = Some records' ->
  exists r others,
    records_of s c d records = r :: others /\
    records_of s c d records' = set_fields status notes r :: others /\
    List.length records' = List.length records.
Proof.
  revert records'.
  induction records as [|r rest IH]; intros records' H; [discriminate|].
  cbn [update_first] in H.
  destruct (same_triple s c d r) eqn:E.
  - injection H as <-. exists r, (records_of s c d rest).
    unfold records_of. cbn [filter]. rewrite same_triple_set_fields, E. auto.
  - destruct (update_first s c d status notes rest) as [rest'|]; [|discriminate].
    injection H as <-.
    destruct (IH rest' eq_refl) as (r0 & others & H1 & H2 & H3).
    exists r0, others. unfold records_of in *. cbn [filter]. rewrite E.
    cbn [List.length]. auto.
Qed.

Lemma update_first_none (s c : bytes) (d : datetime) (status notes : json)
    (records : list attendance_record) :
  update_first s c d status notes records = None <-> records_of s c d records = [].
Proof.
  induction records as [|r rest IH]; [split; reflexivity|].
  unfold records_of in *. cbn [update_first filter].
  destruct (same_triple s c d r).
  - split; discriminate.
  - destruct (update_first s c d status notes rest); cbn [option_map].
    + split; [discriminate|]. intros H. apply IH in H. discriminate.
    + split; [intros _; apply IH; reflexivity | reflexivity].
Qed.

Lemma records_of_app (s c : bytes) (d : datetime) (l1 l2 : list attendance_record) :
  records_of s c d (l1 ++ l2) = records_of s c d l1 ++ records_of s c d l2.
Proof. apply filter_app. Qed.

Section Attendance.

Context {platform : Platform}.

Ltac unfold_handler :=
  unfold hbind, eval, unless, found, gets, write, ret, respond, run.

(** *** The upsert *)

Lemma update_one_inv (s c : bytes) (d : datetime) (status notes : json) (db db' : database) :
  update_one s c d status notes db = Return db' ->
  students_collection db' = students_collection db /\
  courses_collection db' = courses_collection db /\
  bson_encodable status = true /\ bson_encodable notes = true /\
  ((update_first s c d status notes (attendance_collection db)
      = Some (attendance_collection db') /\ issued db' = issued db)
   \/
   (update_first s c d status notes (attendance_collection db) = None /\
    attendance_collection db' =
      attendance_collection db ++
      [{| att_id := new_oid (issued db); att_student_id := s; att_course_id := c;
          att_date := d; att_status := status; att_notes := notes |}] /\
    issued db' = S (issued db))).
Proof.
  unfold update_one.
  destruct (bson_encodable status); [|discriminate].
  destruct (bson_encodable notes); [|discriminate]. cbn [andb].
  destruct (update_first s c d status notes (attendance_collection db)) as [records|];
    intros H; injection H as <-; cbn; auto 10.
Qed.

Lemma update_one_encodable (s c : bytes) (d : datetime) (status notes : json) (db : database) :
  bson_encodable status = true -> bson_encodable notes = true ->
  exists db', update_one s c d status notes db = Return db'.
Proof.
  intros Hs Hn. unfold update_one. rewrite Hs, Hn. cbn [andb].
  destruct (update_first s c d status notes (attendance_collection db));
    eexists; reflexivity.
Qed.

(** The upsert keeps the collection free of duplicate triples. *)
Lemma update_one_at_most_one (s c : bytes) (d : datetime) (status notes : json)
    (db db' : database) :
  update_one s c d status notes db = Return db' ->
  at_most_one (attendance_collection db) -> at_most_one (attendance_collection db').
Proof.
  intros H Huniq s' c' d'.
  destruct (update_one_inv _ _ _ _ _ _ _ H) as (_ & _ & _ & _ & [[Hup _] | (Hnone & Happ & _)]).
  - rewrite (update_first_keeps_triples _ _ _ _ _ _ _ s' c' d' Hup). apply Huniq.
  - rewrite Happ, records_of_app, length_app.
    unfold records_of at 2. cbn [filter].
    destruct (same_triple s' c' d' _) eqn:E; cbn [List.length].
    + apply same_triple_spec in E. cbn in E. destruct E as (<- & <- & <-).
      apply update_first_none in Hnone. rewrite Hnone. cbn. lia.
    + specialize (Huniq s' c' d'). lia.
Qed.

(** After the upsert the first record of the triple carries the new status
    and notes; when the triple had at most one record it now has exactly
    one. *)
Lemma update_one_records_of (s c : bytes) (d : datetime) (status notes : json)
    (db db' : database) :
  update_one s c d status notes db = Return db' ->
  exists r others,
    records_of s c d (attendance_collection db') = r :: others /\
    att_status r = status /\ att_notes r = notes /\
    List.length (r :: others)
      = Nat.max 1 (List.length (records_of s c d (attendance_collection db))).
Proof.
  intros H.
  destruct (update_one_inv _ _ _ _ _ _ _ H) as (_ & _ & _ & _ & [[Hup _] | (Hnone & Happ & _)]).
  - destruct (update_first_some _ _ _ _ _ _ _ Hup) as (r & others & H1 & H2 & _).
    exists (set_fields status notes r), others.
    rewrite H1, H2. cbn. auto.
  - apply update_first_none in Hnone.
    eexists _, []. rewrite Happ, records_of_app, Hnone.
    unfold records_of. cbn [filter app].
    unfold same_triple; cbn. rewrite !bytes_eqb_refl, Z.eqb_refl. cbn. auto.
Qed.

Lemma update_first_again (s c : bytes) (d : datetime) (status notes : json)
    (records records' : list attendance_record) :
  update_first s c d status notes records = Some records' ->
  update_first s c d status notes records' = Some records'.
Proof.
  revert records'.
  induction records as [|r rest IH]; intros records' H; [discriminate|].
  cbn [update_first] in H.
  destruct (same_triple s c d r) eqn:E.
  - injection H as <-. cbn [update_first].
    rewrite same_triple_set_fields, E. reflexivity.
  - destruct (update_first s c d status notes rest) as [rest'|] eqn:Hrest; [|discriminate].
    injection H as <-. cbn [update_first]. rewrite E, (IH rest' eq_refl). reflexivity.
Qed.

Lemma update_first_appended (s c : bytes) (d : datetime) (status notes : json)
    (records : list attendance_record) (id : bytes) :
  let r := {| att_id := id; att_student_id := s; att_course_id := c;
              att_date := d; att_status := status; att_notes := notes |} in
  update_first s c d status notes records = None ->
  update_first s c d status notes (records ++ [r]) = Some (records ++ [r]).
Proof.
  intros r.
  induction records as [|r0 rest IH]; intros H.
  - cbn. unfold same_triple; cbn. rewrite !bytes_eqb_refl, Z.eqb_refl. reflexivity.
  - cbn [update_first] in H. cbn [app update_first].
    destruct (same_triple s c d r0); [discriminate|].
    destruct (update_first s c d status notes rest); [discriminate|].
    rewrite (IH eq_refl). reflexivity.
Qed.

(** Setting the same status and notes a second time changes nothing. *)
Lemma update_one_again (s c : bytes) (d : datetime) (status notes : json)
    (db db' : database) :
  update_one s c d status notes db = Return db' ->
  update_one s c d status notes db' = Return db'.
Proof.
  intros H.
  destruct (update_one_inv _ _ _ _ _ _ _ H) as (_ & _ & Hs & Hn & Hcases).
  assert (Hfix : update_first s c d status notes (attendance_collection db')
                 = Some (attendance_collection db')).
  { destruct Hcases as [[Hup _] | (Hnone & Happ & _)].
    - exact (update_first_again _ _ _ _ _ _ _ Hup).
    - rewrite Happ. apply update_first_appended. exact Hnone. }
  unfold update_one. rewrite Hs, Hn, Hfix. cbn [andb].
  destruct db'; reflexivity.
Qed.

(** *** One entry of a batch *)

Lemma ObjectId_FromHex_valid (v : json) (b : bytes) :
  ObjectId v = Return (FromHex b) ->
  is_valid_objectId v = Return true /\ truthy v = true /\ exists s, v = JStr s.
Proof.
  intros H. unfold is_valid_objectId. rewrite H. cbn.
  destruct v as [| | | s | |]; cbn in H; try discriminate.
  split; [reflexivity|]. split; [|exists s; reflexivity].
  destruct s; [discriminate | reflexivity].
Qed.

(** An entry that passes the four checks is upserted and echoed. *)
Lemma mark_record_ok (course_id : json) (t : datetime) (m : list (string * json))
    (student_id status : json) (s c : bytes) (db db' : database) :
  lookup "student_id" m = Some student_id ->
  lookup "status" m = Some status -> truthy status = true ->
  ObjectId student_id = Return (FromHex s) ->
  existsb (has_oid s) (students_collection db) = true ->
  ObjectId course_id = Return (FromHex c) ->
  existsb (has_oid c) (courses_collection db) = true ->
  update_one s c t status (notes_or_default (lookup "notes" m)) db = Return db' ->
  mark_record course_id t (JObj m) db =
    (Next (JObj [("student_id", student_id); ("course_id", course_id);
                 ("date", JStr (isoformat t)); ("status", status);
                 ("notes", notes_or_default (lookup "notes" m))]), db').
Proof.
  intros Hsid Hst Htruthy Hs Hstudent Hc Hcourse Hup.
  destruct (ObjectId_FromHex_valid _ _ Hs) as (Hvalid & Hts & _).
  unfold mark_record. rewrite all_present_object.
  unfold carries. cbn [forallb]. rewrite Hsid, Hst, Hts, Htruthy.
  unfold_handler. cbn [andb py_getitem py_get].
  rewrite Hsid, Hvalid, Hs. cbn [find_one_by_id]. rewrite Hstudent.
  rewrite Hc. cbn [find_one_by_id]. rewrite Hcourse, Hst.
  unfold notes_or_default in *.
  destruct (lookup "notes" m); rewrite Hup; reflexivity.
Qed.

(** Whatever the entry, it either leaves with a response and writes nothing,
    or goes on after exactly one upsert. *)
Lemma mark_record_cases (course_id : json) (t : datetime) (rec : json) (db : database) :
  (exists r, mark_record course_id t rec db = (Exit r, db)) \/
  (exists echo s c status notes db',
      mark_record course_id t rec db = (Next echo, db') /\
      update_one s c t status notes db = Return db').
Proof.
  unfold mark_record. unfold_handler.
  destruct (all_present rec ["student_id"; "status"]) as [[|]|e]; eauto.
  destruct (py_getitem rec "student_id") as [student_id|e]; eauto.
  destruct (is_valid_objectId student_id) as [[|]|e]; eauto.
  destruct (ObjectId student_id) as [student_oid|e]; eauto.
  destruct (find_one_by_id (students_collection db) student_oid) as [s|]; eauto.
  destruct (ObjectId course_id) as [course_oid|e]; eauto.
  destruct (find_one_by_id (courses_collection db) course_oid) as [c|]; eauto.
  destruct (py_getitem rec "status") as [status|e]; eauto.
  destruct (py_get rec "notes" (JStr "")) as [notes|e]; eauto.
  destruct (update_one s c t status notes db) as [db'|e] eqn:Hup; eauto 10.
Qed.


(** *** The loop *)

Lemma mark_records_exit (course_id : json) (t : datetime) (rec : json) (rest : list json)
    (db db' : database) (r : response) :
  mark_record course_id t rec db = (Exit r, db') ->
  mark_records course_id t (rec :: rest) db = (Exit r, db').
Proof. intros H. cbn [mark_records]. unfold hbind. rewrite H. reflexivity. Qed.



(** *** The request *)

(** Past its header, the handler is the loop over the entries. *)
Lemma mark_attendance_loop (members : list (string * json)) (course_id date records : json)
    (t : datetime) (items : list json) (db : database) :
  lookup "course_id" members = Some course_id -> truthy course_id = true ->
  lookup "date" members = Some date -> truthy date = true ->
  lookup "records" members = Some records -> truthy records = true ->
  is_valid_objectId course_id = Return true ->
  strptime date = Return t ->
  py_iter records = Return items ->
  mark_attendance (JObj members) db =
    match mark_records course_id t items db with
    | (Next processed, db') =>
        (Response (JObj [("message", JStr "Attendance saved successfully");
                         ("processed_records", JArr processed)]) 200, db')
    | (Exit r, db') => (r, db')
    end.
Proof.
  intros Hc Htc Hd Htd Hr Htr Hvalid Hdate Hiter.
  unfold mark_attendance, mark_attendance_body.
  rewrite all_present_object. unfold carries. cbn [forallb].
  rewrite Hc, Hd, Hr, Htc, Htd, Htr.
  assert (Hm : truthy (JObj members) = true).
  { destruct members; [discriminate | reflexivity]. }
  rewrite Hm. unfold_handler. cbn [andb py_getitem].
  rewrite Hc, Hvalid, Hd, Hdate, Hr, Hiter.
  destruct (mark_records course_id t items db) as [[processed | r] db']; reflexivity.
Qed.

Lemma mark_attendance_request (course_id date : string) (ordinal : Z) (entries : list json)
    (db : database) :
  is_valid_objectId (JStr course_id) = Return true ->
  strptime_Ymd date = Some ordinal -> date <> "" -> entries <> [] ->
  mark_attendance (mark_request course_id date entries) db =
    match mark_records (JStr course_id) (midnight ordinal) entries db with
    | (Next processed, db') =>
        (Response (JObj [("message", JStr "Attendance saved successfully");
                         ("processed_records", JArr processed)]) 200, db')
    | (Exit r, db') => (r, db')
    end.
Proof.
  intros Hvalid Hdate Hne Hentries.
  apply mark_attendance_loop with (date := JStr date) (records := JArr entries);
    try reflexivity; try assumption.
  - unfold is_valid_objectId, ObjectId in Hvalid.
    destruct course_id; [discriminate Hvalid | reflexivity].
  - destruct date; [congruence | reflexivity].
  - destruct entries; [congruence | reflexivity].
  - cbn. rewrite Hdate. reflexivity.
Qed.


Lemma lookup_notes_entry (student_id : string) (status : json) (notes : option json) :
  lookup "notes" (("student_id", JStr student_id) :: ("status", status) ::
                  match notes with Some v => [("notes", v)] | None => [] end) = notes.
Proof. destruct notes; reflexivity. Qed.

Lemma mark_record_entry (course_id student_id : string) (t : datetime) (s c : bytes)
    (status : json) (notes : option json) (db db' : database) :
  ObjectId (JStr course_id) = Return (FromHex c) ->
  ObjectId (JStr student_id) = Return (FromHex s) ->
  existsb (has_oid s) (students_collection db) = true ->
  existsb (has_oid c) (courses_collection db) = true ->
  truthy status = true ->
  update_one s c t status (notes_or_default notes) db = Return db' ->
  mark_record (JStr course_id) t (entry student_id status notes) db =
    (Next (JObj [("student_id", JStr student_id); ("course_id", JStr course_id);
                 ("date", JStr (isoformat t)); ("status", status);
                 ("notes", notes_or_default notes)]), db').
Proof.
  intros Hc Hs Hstudent Hcourse Htruthy Hup. unfold entry.
  rewrite (mark_record_ok (JStr course_id) t _ (JStr student_id) status s c db db');
    try reflexivity; try assumption.
  - rewrite lookup_notes_entry. reflexivity.
  - rewrite lookup_notes_entry. exact Hup.
Qed.

(** A request with a single entry that passes every check is one upsert,
    echoed back. *)
Lemma mark_attendance_single (course_id date student_id : string) (ordinal : Z)
    (s c : bytes) (status : json) (notes : option json) (db db' : database) :
  ObjectId (JStr course_id) = Return (FromHex c) ->
  ObjectId (JStr student_id) = Return (FromHex s) ->
  strptime_Ymd date = Some ordinal -> date <> "" ->
  existsb (has_oid s) (students_collection db) = true ->
  existsb (has_oid c) (courses_collection db) = true ->
  truthy status = true ->
  update_one s c (midnight ordinal) status (notes_or_default notes) db = Return db' ->
  mark_attendance (mark_request course_id date [entry student_id status notes]) db =
    (Response
       (saved [JObj [("student_id", JStr student_id); ("course_id", JStr course_id);
                     ("date", JStr (isoformat (midnight ordinal))); ("status", status);
                     ("notes", notes_or_default notes)]]) 200,
     db').
Proof.
  intros Hc Hs Hdate Hne Hstudent Hcourse Htruthy Hup.
  destruct (ObjectId_FromHex_valid _ _ Hc) as (Hvalid & _ & _).
  rewrite (mark_attendance_request _ _ ordinal) by (assumption || discriminate).
  cbn [mark_records]. unfold hbind.
  rewrite (mark_record_entry _ _ _ s c _ _ db db') by assumption.
  reflexivity.
Qed.



(** C8.  Marking the same triple twice with the same status and notes: both
    calls succeed with the same body (the same echoed entry), the second
    leaves the collections exactly as the first left them, and the triple has
    exactly one record, whose status and notes are those of the request. *)
Theorem mark_attendance_idempotent
    (course_id date student_id : string) (ordinal : Z) (s c : bytes)
    (status : json) (notes : option json) (db : database) :
  ObjectId (JStr course_id) = Return (FromHex c) ->
  ObjectId (JStr student_id) = Return (FromHex s) ->
  strptime_Ymd date = Some ordinal -> date <> "" ->
  existsb (has_oid s) (students_collection db) = true ->
  existsb (has_oid c) (courses_collection db) = true ->
  truthy status = true ->
  bson_encodable status = true -> bson_encodable (notes_or_default notes) = true ->
  at_most_one (attendance_collection db) ->
  let request := mark_request course_id date [entry student_id status notes] in
  let body :=
    saved [JObj [("student_id", JStr student_id); ("course_id", JStr course_id);
                 ("date", JStr (isoformat (midnight ordinal))); ("status", status);
                 ("notes", notes_or_default notes)]] in
  exists db1 r,
    mark_attendance request db = (Response body 200, db1) /\
    mark_attendance request db1 = (Response body 200, db1) /\
    records_of s c (midnight ordinal) (attendance_collection db1) = [r] /\
    att_status r = status /\ att_notes r = notes_or_default notes.
Proof.
  intros Hc Hs Hdate Hne Hstudent Hcourse Htruthy He Hn Huniq request body.
  set (t := midnight ordinal).
  destruct (update_one_encodable s c t status (notes_or_default notes) db He Hn)
    as [db1 Hup1].
  pose proof (update_one_again _ _ _ _ _ _ _ Hup1) as Hup2.
  destruct (update_one_inv _ _ _ _ _ _ _ Hup1) as (Hst1 & Hco1 & _).
  pose proof (update_one_at_most_one _ _ _ _ _ _ _ Hup1 Huniq) as Huniq1.
  destruct (update_one_records_of _ _ _ _ _ _ _ Hup1) as (r & others & Hr & Hs1 & Hn1 & _).
  assert (others = []) as ->.
  { specialize (Huniq1 s c t). rewrite Hr in Huniq1. cbn in Huniq1.
    destruct others; [reflexivity | cbn in Huniq1; lia]. }
  exists db1, r.
  split; [eapply mark_attendance_single; eassumption|].
  split; [eapply mark_attendance_single; try eassumption; congruence|].
  auto.
Qed.


(** X19.  The checks made on an entry [{...}] of a batch, in their order, with
    the response of each; every failure ends the loop there, the entries
    behind it untouched and nothing written.  An entry lacking [student_id]
    or [status] (or carrying an empty one) is a 400; then a [student_id] that
    fails the format check, [is_valid_objectId], is a 400; then a student
    absent from the collection is a 404; then a course absent from the
    collection is a 404. *)
Theorem mark_record_checks_in_order
    (course_id : json) (t : datetime) (m : list (string * json)) (rest : list json)
    (db : database) (student_id : json) (student_oid course_oid : objectid) (s : bytes) :
  let result := mark_records course_id t (JObj m :: rest) db in
  (lookup "student_id" m = None \/ lookup "status" m = None ->
   carries m ["student_id"; "status"] = false)
  /\
  (carries m ["student_id"; "status"] = false ->
   result = (Exit (Response (error "Each record must include student_id and status") 400), db))
  /\
  (carries m ["student_id"; "status"] = true ->
   lookup "student_id" m = Some student_id ->
   is_valid_objectId student_id = Return false ->
   result = (Exit (Response (error ("Invalid student_id: " ++ format_value student_id)) 400),
             db))
  /\
  (carries m ["student_id"; "status"] = true ->
   lookup "student_id" m = Some student_id ->
   ObjectId student_id = Return student_oid ->
   find_one_by_id (students_collection db) student_oid = None ->
   result = (Exit (Response (error ("Student not found: " ++ format_value student_id)) 404),
             db))
  /\
  (carries m ["student_id"; "status"] = true ->
   lookup "student_id" m = Some student_id ->
   ObjectId student_id = Return student_oid ->
   find_one_by_id (students_collection db) student_oid = Some s ->
   ObjectId course_id = Return course_oid ->
   find_one_by_id (courses_collection db) course_oid = None ->
   result = (Exit (Response (error ("Course not found: " ++ format_value course_id)) 404),
             db)).
Proof.
  intros result.
  assert (Hvalid : ObjectId student_id = Return student_oid ->
                   is_valid_objectId student_id = Return true).
  { intros Hoid. unfold is_valid_objectId. rewrite Hoid. reflexivity. }
  split; [|split; [|split; [|split]]].
  - unfold carries. cbn [forallb]. intros [H | H]; rewrite H.
    + reflexivity.
    + destruct (lookup "student_id" m) as [v|]; [destruct (truthy v)|]; reflexivity.
  - intros Hmissing. apply mark_records_exit.
    unfold mark_record. rewrite all_present_object, Hmissing. reflexivity.
  - intros Hcarries Hsid Hinvalid. apply mark_records_exit.
    unfold mark_record. rewrite all_present_object, Hcarries.
    unfold_handler. cbn [py_getitem]. rewrite Hsid, Hinvalid. reflexivity.
  - intros Hcarries Hsid Hoid Hnone. apply mark_records_exit.
    unfold mark_record. rewrite all_present_object, Hcarries.
    unfold_handler. cbn [py_getitem]. rewrite Hsid, (Hvalid Hoid), Hoid, Hnone. reflexivity.
  - intros Hcarries Hsid Hoid Hsome Hcoid Hnone. apply mark_records_exit.
    unfold mark_record. rewrite all_present_object, Hcarries.
    unfold_handler. cbn [py_getitem].
    rewrite Hsid, (Hvalid Hoid), Hoid, Hsome, Hcoid, Hnone. reflexivity.
Qed.

(** C10.  A body whose [records] is the empty array is answered like a body
    without [records]: 400 with the missing-fields message, nothing written;
    the batch is never taken as an empty success. *)
Theorem mark_attendance_empty_records
    (members : list (string * json)) (course_id date : json) (db : database) :
  lookup "course_id" members = Some course_id ->
  lookup "date" members = Some date ->
  lookup "records" members = Some (JArr []) ->
  let missing :=
    (Response (error "Missing required fields: course_id, date, records") 400, db) in
  mark_attendance (JObj members) db = missing /\
  mark_attendance (JObj (dict_remove "records" members)) db = missing.
Proof.
  intros Hc Hd Hr missing.
  assert (Hhead : forall ms,
             lookup "course_id" ms = Some course_id ->
             carries ms ["course_id"; "date"; "records"] = false ->
             mark_attendance (JObj ms) db = missing).
  { intros ms Hcm Hcarries.
    unfold mark_attendance, mark_attendance_body.
    rewrite all_present_object, Hcarries.
    destruct ms; [discriminate Hcm | reflexivity]. }
  split; apply Hhead; try assumption.
  - unfold carries. cbn [forallb]. rewrite Hc, Hd, Hr.
    destruct (truthy course_id), (truthy date); reflexivity.
  - rewrite lookup_dict_remove_other by discriminate. exact Hc.
  - unfold carries. cbn [forallb].
    rewrite lookup_dict_remove_same, !andb_false_r. reflexivity.
Qed.

(** *** Reading a day of attendance *)

Lemma toordinal_midnight (ordinal : Z) : toordinal (midnight ordinal) = ordinal.
Proof. unfold toordinal, midnight. apply Z.div_mul. discriminate. Qed.

(** The half-open interval from midnight to the next midnight holds the
    dates of that calendar day, whatever their time of day. *)
Lemma within_day (ordinal : Z) (d : datetime) :
  ((midnight ordinal <=? d) && (d <? midnight ordinal + 1 * ms_per_day))%Z
  = (toordinal d =? ordinal)%Z.
Proof.
  unfold midnight, toordinal, ms_per_day.
  apply eq_true_iff_eq.
  rewrite andb_true_iff, Z.leb_le, Z.ltb_lt, Z.eqb_eq.
  Z.div_mod_to_equations. lia.
Qed.

(** X2.  For an identifier the validator accepts and a date before the last
    representable day, the response lists exactly the records of the course
    whose date falls on that day, in the order of the collection, each with
    its identifiers and date as strings. *)
Theorem get_attendance_of_day (course_id date_str : string) (c : bytes) (ordinal : Z)
    (db : database) :
  ObjectId (JStr course_id) = Return (FromHex c) ->
  strptime_Ymd date_str = Some ordinal ->
  (0 <= ordinal < MAXORDINAL)%Z ->
  get_attendance_by_course_and_date course_id date_str db =
    Response
      (JArr (map stringify
               (filter (fun r => bytes_eqb (att_course_id r) c
                                 && (toordinal (att_date r) =? ordinal)%Z)
                       (attendance_collection db)))) 200.
Proof.
  intros Hc Hdate Hrange.
  destruct (ObjectId_FromHex_valid _ _ Hc) as (Hvalid & _ & _).
  unfold get_attendance_by_course_and_date. rewrite Hvalid.
  cbn [strptime]. rewrite Hdate. cbn [obind].
  unfold add_days. rewrite toordinal_midnight.
  assert (Hin : ((0 <? ordinal + 1) && (ordinal + 1 <=? MAXORDINAL))%Z = true).
  { apply andb_true_intro. split; [apply Z.ltb_lt | apply Z.leb_le]; lia. }
  rewrite Hin. cbn [obind]. rewrite Hc. cbn [obind find_by_course_and_date].
  do 3 f_equal. apply filter_ext. intros r.
  rewrite <- andb_assoc, within_day. reflexivity.
Qed.

(** On the last representable day the handler leaves with an exception: the
    end of the interval is out of range, and [OverflowError] is not the
    [ValueError] that the [try] catches. *)
Lemma get_attendance_overflow (course_id date_str : string) (db : database) :
  is_valid_objectId (JStr course_id) = Return true ->
  strptime_Ymd date_str = Some MAXORDINAL ->
  get_attendance_by_course_and_date course_id date_str db = Unhandled OverflowError.
Proof.
  intros Hvalid Hdate.
  unfold get_attendance_by_course_and_date. rewrite Hvalid.
  cbn [strptime]. rewrite Hdate. cbn [obind].
  unfold add_days. rewrite toordinal_midnight. reflexivity.
Qed.

(** X18.  [GET /attendance/<course_id>/<date_str>]: an identifier that fails
    the format check, [is_valid_objectId] (so any string whose length is not
    24, and any string with a character that is neither a hexadecimal digit
    nor whitespace), is answered 400 whatever the collections hold and
    whatever the date string is; an identifier that passes it, with a date
    string that does not parse, is answered 400 with the date message.  The
    identifier is checked first. *)
Theorem get_attendance_rejections (course_id date_str : string) (db : database) :
  (String.length course_id <> 24%nat \/
   (exists ch, occurs ch course_id /\ is_hex_digit ch = false /\ Py_ISSPACE ch = false) ->
   is_valid_objectId (JStr course_id) = Return false)
  /\
  (is_valid_objectId (JStr course_id) = Return false ->
   get_attendance_by_course_and_date course_id date_str db
     = Response (error "Invalid course_id format") 400)
  /\
  (is_valid_objectId (JStr course_id) = Return true ->
   strptime_Ymd date_str = None ->
   get_attendance_by_course_and_date course_id date_str db
     = Response (error "Invalid date format. Use YYYY-MM-DD") 400).
Proof.
  split.
  { intros [Hlen | (ch & Hin & Hhex & Hspace)].
    - apply is_valid_objectId_wrong_length. exact Hlen.
    - apply (is_valid_objectId_foreign_character ch); assumption. }
  split.
  - intros Hinvalid. unfold get_attendance_by_course_and_date. rewrite Hinvalid. reflexivity.
  - intros Hvalid Hdate. unfold get_attendance_by_course_and_date.
    rewrite Hvalid. cbn [strptime]. rewrite Hdate. reflexivity.
Qed.

End Attendance.

(** ** Creating students *)

Section Students.

Context {platform : Platform}.

(** C4.  A create request that carries its four required fields looks the
    [student_id] up, then the e-mail address, then inserts.  A match of the
    first lookup is answered 409 with the message about the ID, whatever the
    second would find; a match of the second alone is answered 409 with the
    message about the e-mail address; either way the collections are left as
    they were.  The insert is reached only when both lookups find nothing. *)
Theorem add_student_conflicts (data : json) (db : database) :
  all_present data ["student_id"; "first_name"; "last_name"; "email"] = Return true ->
  exists members student_id email,
    data = JObj members /\
    lookup "student_id" members = Some student_id /\
    lookup "email" members = Some email /\
    (forall d,
        find_one_field "student_id" student_id (students_collection db) = Return (Some d) ->
        add_student data db
          = (Response (error "Student with this ID already exists") 409, db)) /\
    (forall d,
        find_one_field "student_id" student_id (students_collection db) = Return None ->
        find_one_field "email" email (students_collection db) = Return (Some d) ->
        add_student data db
          = (Response (error "Student with this email already exists") 409, db)) /\
    (find_one_field "student_id" student_id (students_collection db) = Return None ->
     find_one_field "email" email (students_collection db) = Return None ->
     add_student data db =
       match insert_one data db with
       | Return (key, db') =>
           (Response (JObj (dict_set "_id" (JStr (str_of_key key)) members)) 201, db')
       | Raise e => (Unhandled e, db)
       end).
Proof.
  intros Hall.
  destruct (all_present_true_is_object _ _ _ Hall) as [members ->].
  rewrite all_present_object in Hall.
  assert (Hcarries : carries members ["student_id"; "first_name"; "last_name"; "email"] = true)
    by congruence.
  destruct (carries_lookup _ _ "student_id" Hcarries) as (student_id & Hsid & _);
    [cbn; auto|].
  destruct (carries_lookup _ _ "email" Hcarries) as (email & Hemail & _);
    [cbn; auto|].
  exists members, student_id, email.
  assert (Htruthy : truthy (JObj members) = true).
  { destruct members; [discriminate Hsid | reflexivity]. }
  repeat split; try assumption.
  - intros d Hfound. unfold add_student, add_student_body.
    rewrite all_present_object, Hcarries, Htruthy.
    unfold hbind, eval, unless, gets, ret, respond, run.
    cbn [py_getitem]. rewrite Hsid, Hfound. reflexivity.
  - intros d Hnone Hfound. unfold add_student, add_student_body.
    rewrite all_present_object, Hcarries, Htruthy.
    unfold hbind, eval, unless, gets, ret, respond, run.
    cbn [py_getitem]. rewrite Hsid, Hnone, Hemail, Hfound. reflexivity.
  - intros Hnone Hnone'. unfold add_student, add_student_body.
    rewrite all_present_object, Hcarries, Htruthy.
    unfold hbind, eval, unless, gets, ret, respond, run.
    cbn [py_getitem]. rewrite Hsid, Hnone, Hemail, Hnone'.
    destruct (insert_one (JObj members) db) as [[key db']|e]; reflexivity.
Qed.

End Students.

(** ** Runs on the reference platform *)

Section Runs.

#[local] Existing Instance Reference.platform.

Lemma at_most_one_nil : at_most_one [].
Proof. intros s c d. cbn. lia. Qed.


(** The scenario of C8 on the sample data: late, with a note, twice. *)
Lemma mark_attendance_idempotent_run :
  exists db1 r,
    mark_attendance
      (mark_request Sample.course_oid "2024-03-01"
         [entry Sample.student_oid (JStr "late") (Some (JStr "bus"))]) Sample.db
      = (Response
           (saved [JObj [("student_id", JStr Sample.student_oid);
                         ("course_id", JStr Sample.course_oid);
                         ("date", JStr "2024-03-01T00:00:00");
                         ("status", JStr "late"); ("notes", JStr "bus")]]) 200, db1) /\
    mark_attendance
      (mark_request Sample.course_oid "2024-03-01"
         [entry Sample.student_oid (JStr "late") (Some (JStr "bus"))]) db1
      = (Response
           (saved [JObj [("student_id", JStr Sample.student_oid);
                         ("course_id", JStr Sample.course_oid);
                         ("date", JStr "2024-03-01T00:00:00");
                         ("status", JStr "late"); ("notes", JStr "bus")]]) 200, db1) /\
    records_of Sample.student_binary Sample.course_binary (midnight 738946)
      (attendance_collection db1) = [r] /\
    att_status r = JStr "late" /\ att_notes r = JStr "bus".
Proof.
  refine (mark_attendance_idempotent
            Sample.course_oid "2024-03-01" Sample.student_oid 738946
            Sample.student_binary Sample.course_binary
            (JStr "late") (Some (JStr "bus")) Sample.db _ _ _ _ _ _ _ _ _ _);
    try reflexivity; try discriminate.
  exact at_most_one_nil.
Defined.


(** The four failures of an entry on the sample data, each before an entry that
    would have been accepted. *)
Lemma mark_record_checks_in_order_run :
  let t := midnight 738946 in
  let good := entry Sample.student_oid (JStr "present") None in
  mark_records (JStr Sample.course_oid) t
    [JObj [("student_id", JStr Sample.student_oid)]; good] Sample.db
    = (Exit (Response (error "Each record must include student_id and status") 400),
       Sample.db) /\
  mark_records (JStr Sample.course_oid) t
    [JObj [("student_id", JStr "S001"); ("status", JStr "present")]; good] Sample.db
    = (Exit (Response (error "Invalid student_id: S001") 400), Sample.db) /\
  mark_records (JStr Sample.course_oid) t
    [JObj [("student_id", JStr Sample.nobody_oid); ("status", JStr "present")]; good]
    Sample.db
    = (Exit (Response (error "Student not found: 65000000000000000000000f") 404),
       Sample.db) /\
  mark_records (JStr Sample.nobody_oid) t
    [JObj [("student_id", JStr Sample.student_oid); ("status", JStr "present")]; good]
    Sample.db
    = (Exit (Response (error "Course not found: 65000000000000000000000f") 404),
       Sample.db).
Proof.
  intros t good.
  pose (nobody := FromHex [101; 0; 0; 0; 0; 0; 0; 0; 0; 0; 0; 15]%N).
  split; [|split; [|split]].
  - pose proof (mark_record_checks_in_order (JStr Sample.course_oid) t
                  [("student_id", JStr Sample.student_oid)] [good] Sample.db
                  JNull Generated Generated []) as (Hmissing & Hfirst & _).
    apply Hfirst, Hmissing. right. reflexivity.
  - pose proof (mark_record_checks_in_order (JStr Sample.course_oid) t
                  [("student_id", JStr "S001"); ("status", JStr "present")] [good] Sample.db
                  (JStr "S001") Generated Generated []) as (_ & _ & Hsecond & _).
    apply Hsecond; reflexivity.
  - pose proof (mark_record_checks_in_order (JStr Sample.course_oid) t
                  [("student_id", JStr Sample.nobody_oid); ("status", JStr "present")]
                  [good] Sample.db
                  (JStr Sample.nobody_oid) nobody Generated []) as (_ & _ & _ & Hthird & _).
    apply Hthird; reflexivity.
  - pose proof (mark_record_checks_in_order (JStr Sample.nobody_oid) t
                  [("student_id", JStr Sample.student_oid); ("status", JStr "present")]
                  [good] Sample.db
                  (JStr Sample.student_oid) (FromHex Sample.student_binary) nobody
                  Sample.student_binary) as (_ & _ & _ & _ & Hfourth).
    apply Hfourth; reflexivity.
Defined.

(** The rejections of the route on the sample data: a short identifier with a date
    that parses and with one that does not, then a good identifier with a
    date that does not exist. *)
Lemma get_attendance_rejections_run :
  get_attendance_by_course_and_date "abc" "2024-03-01" Sample.db
    = Response (error "Invalid course_id format") 400 /\
  get_attendance_by_course_and_date "abc" "13 Jan" Sample.db
    = Response (error "Invalid course_id format") 400 /\
  get_attendance_by_course_and_date Sample.course_oid "2024-13-40" Sample.db
    = Response (error "Invalid date format. Use YYYY-MM-DD") 400.
Proof.
  split; [|split].
  - apply (proj1 (proj2 (get_attendance_rejections "abc" "2024-03-01" Sample.db))).
    apply (proj1 (get_attendance_rejections "abc" "2024-03-01" Sample.db)).
    left. discriminate.
  - apply (proj1 (proj2 (get_attendance_rejections "abc" "13 Jan" Sample.db))).
    apply (proj1 (get_attendance_rejections "abc" "13 Jan" Sample.db)).
    left. discriminate.
  - apply (proj2 (proj2 (get_attendance_rejections Sample.course_oid "2024-13-40" Sample.db)));
      reflexivity.
Defined.

(** C10 on the sample data. *)
Lemma mark_attendance_empty_records_run :
  mark_attendance (mark_request Sample.course_oid "2024-03-01" []) Sample.db
    = (Response (error "Missing required fields: course_id, date, records") 400, Sample.db) /\
  mark_attendance
    (JObj [("course_id", JStr Sample.course_oid); ("date", JStr "2024-03-01")]) Sample.db
    = (Response (error "Missing required fields: course_id, date, records") 400, Sample.db).
Proof.
  apply (mark_attendance_empty_records
           [("course_id", JStr Sample.course_oid); ("date", JStr "2024-03-01");
            ("records", JArr [])]
           (JStr Sample.course_oid) (JStr "2024-03-01") Sample.db);
    reflexivity.
Defined.

(** C4 on the sample data: the [student_id] of the stored student under a
    new e-mail address. *)
Lemma add_student_conflicts_run :
  add_student Sample.same_student_id Sample.db
    = (Response (error "Student with this ID already exists") 409, Sample.db).
Proof.
  destruct (add_student_conflicts Sample.same_student_id Sample.db eq_refl)
    as (members & student_id & email & Hdata & Hsid & Hemail & Hid & _).
  injection Hdata as <-.
  injection Hsid as <-.
  exact (Hid _ eq_refl).
Defined.

(** A day of attendance read back after a mark on the sample data. *)
Lemma get_attendance_of_day_run :
  let db1 :=
    snd (mark_attendance
           (mark_request Sample.course_oid "2024-03-01"
              [entry Sample.student_oid (JStr "present") None]) Sample.db) in
  get_attendance_by_course_and_date Sample.course_oid "2024-03-01" db1 =
    Response
      (JArr (map stringify
               (filter (fun r => bytes_eqb (att_course_id r) Sample.course_binary
                                 && (toordinal (att_date r) =? 738946)%Z)
                       (attendance_collection db1)))) 200.
Proof.
  intros db1.
  apply (get_attendance_of_day Sample.course_oid "2024-03-01" Sample.course_binary 738946 db1).
  - reflexivity.
  - reflexivity.
  - unfold MAXORDINAL. lia.
Defined.

Example get_attendance_of_day_body :
  get_attendance_by_course_and_date Sample.course_oid "2024-03-01"
    (snd (mark_attendance
            (mark_request Sample.course_oid "2024-03-01"
               [entry Sample.student_oid (JStr "present") None]) Sample.db))
  = Response
      (JArr [JObj [("_id", JStr "000000000000000000000002");
                   ("student_id", JStr "650000000000000000000001");
                   ("course_id", JStr "650000000000000000000002");
                   ("date", JStr "2024-03-01T00:00:00");
                   ("status", JStr "present");
                   ("notes", JStr "")]]) 200.
Proof. reflexivity. Qed.

(** C5 (departure of the code).  For a well-formed identifier and the date
    string [9999-12-31], which parses, the handler does not return the
    records of that day: computing the end of the interval raises
    [OverflowError], which the [except ValueError] clause lets through. *)
Theorem get_attendance_last_day_unhandled (db : database) :
  is_hex24 "650000000000000000000002" = true /\
  strptime (JStr "9999-12-31") = Return (midnight MAXORDINAL) /\
  add_days (midnight MAXORDINAL) 1 = Raise OverflowError /\
  get_attendance_by_course_and_date "650000000000000000000002" "9999-12-31" db
    = Unhandled OverflowError.
Proof.
  split; [reflexivity|]. split; [reflexivity|]. split; [reflexivity|].
  apply get_attendance_overflow; reflexivity.
Qed.

End Runs.

(** ** Identifiers and their strings *)

Section IdentifierStrings.

Lemma hex_of_bytes_cons (x : N) (rest : bytes) :
  hex_of_bytes (x :: rest) =
  String (hex_digit_char (x / 16)) (String (hex_digit_char (x mod 16)) (hex_of_bytes rest)).
Proof. reflexivity. Qed.

Lemma hex_digit_char_lower (a : ascii) :
  is_hex_digit a = true -> hex_digit_char (PyLong_DigitValue a) = lower_char a.
Proof.
  destruct a as [[] [] [] [] [] [] [] []]; vm_compute; congruence.
Qed.

Lemma small_digit_cases (d : N) :
  (d < 16)%N -> In d (map N.of_nat (seq 0 16)).
Proof.
  intros H. replace d with (N.of_nat (N.to_nat d)) by apply N2Nat.id.
  apply in_map, in_seq. lia.
Qed.

Lemma hex_digit_char_value (d : N) :
  (d < 16)%N ->
  PyLong_DigitValue (hex_digit_char d) = d /\ Py_ISSPACE (hex_digit_char d) = false.
Proof.
  intros H. apply small_digit_cases in H. cbn in H.
  repeat (destruct H as [<- | H]; [split; reflexivity|]). destruct H.
Qed.

Lemma fromhex_hex_pairs (s : string) :
  all_hex s = true -> Nat.even (String.length s) = true ->
  exists b,
    fromhex s = Return b /\
    (2 * List.length b = String.length s)%nat /\
    Forall (fun x => (x < 256)%N) b /\
    hex_of_bytes b = lower s.
Proof.
  induction s as [| a | a b s IH] using string_pair_ind; intros Hhex Heven.
  - exists []. repeat split; auto.
  - discriminate Heven.
  - cbn [all_hex] in Hhex.
    apply andb_prop in Hhex as [Ha Hrest].
    apply andb_prop in Hrest as [Hb Hs].
    destruct (IH Hs Heven) as (tail & Htail & Hlen & Hsmall & Hstr).
    pose proof Ha as Hta. pose proof Hb as Htb.
    unfold is_hex_digit in Hta, Htb. apply N.ltb_lt in Hta, Htb.
    set (top := PyLong_DigitValue a) in *. set (bot := PyLong_DigitValue b) in *.
    exists ((16 * top + bot)%N :: tail).
    split.
    { cbn [fromhex].
      rewrite (hex_digit_not_space a Ha), (hex_digit_value a Ha), (hex_digit_value b Hb).
      rewrite Htail. reflexivity. }
    split; [cbn [List.length String.length]; lia|].
    split; [constructor; [lia | exact Hsmall]|].
    rewrite hex_of_bytes_cons, Hstr. cbn [lower].
    assert (Hdiv : ((16 * top + bot) / 16 = top)%N).
    { symmetry. apply N.div_unique with bot; lia. }
    assert (Hmod : ((16 * top + bot) mod 16 = bot)%N).
    { symmetry. apply N.mod_unique with top; lia. }
    rewrite Hdiv, Hmod. unfold top, bot.
    rewrite (hex_digit_char_lower a Ha), (hex_digit_char_lower b Hb). reflexivity.
Qed.

Lemma fromhex_hex_of_bytes (b : bytes) :
  Forall (fun x => (x < 256)%N) b -> fromhex (hex_of_bytes b) = Return b.
Proof.
  induction 1 as [|x rest Hx Hrest IH]; [reflexivity|].
  rewrite hex_of_bytes_cons. cbn [fromhex].
  assert (Hhi : (x / 16 < 16)%N) by (apply N.Div0.div_lt_upper_bound; lia).
  assert (Hlo : (x mod 16 < 16)%N) by (apply N.mod_lt; discriminate).
  destruct (hex_digit_char_value _ Hhi) as [Vhi Shi].
  destruct (hex_digit_char_value _ Hlo) as [Vlo _].
  rewrite Shi, Vhi, Vlo.
  apply N.ltb_lt in Hhi, Hlo. rewrite N.leb_antisym, Hhi. cbn [negb].
  rewrite N.leb_antisym, Hlo. cbn [negb].
  rewrite IH. cbn [obind].
  rewrite <- (N.div_mod x 16) by discriminate. reflexivity.
Qed.

Lemma length_hex_of_bytes (b : bytes) :
  String.length (hex_of_bytes b) = (2 * List.length b)%nat.
Proof.
  induction b as [|x rest IH]; [reflexivity|].
  rewrite hex_of_bytes_cons. cbn [String.length List.length]. rewrite IH. lia.
Qed.

Lemma ObjectId_hex24_read (s : string) :
  is_hex24 s = true ->
  exists b, ObjectId (JStr s) = Return (FromHex b) /\
            List.length b = 12%nat /\ Forall (fun x => (x < 256)%N) b /\
            str_of_binary b = lower s.
Proof.
  intros H. unfold is_hex24 in H. apply andb_prop in H as [Hlen Hhex].
  pose proof Hlen as Hlen'. apply Nat.eqb_eq in Hlen'.
  assert (Heven : Nat.even (String.length s) = true) by (rewrite Hlen'; reflexivity).
  destruct (fromhex_hex_pairs s Hhex Heven) as (b & Hb & Hl & Hsmall & Hstr).
  exists b. unfold ObjectId. rewrite Hlen, Hb.
  repeat split; auto. lia.
Qed.

(** X3.  Identifiers and their strings go back and forth.  A string of 24
    hexadecimal digits is read as twelve bytes whose rendering, [str(oid)],
    is the string in lower case; the rendering of twelve bytes is read back
    as the same bytes; hence the identifier read from a 24-digit string does
    not depend on the case of its letters. *)
Theorem ObjectId_str_round_trip :
  (forall s, is_hex24 s = true ->
     exists b, ObjectId (JStr s) = Return (FromHex b) /\
               List.length b = 12%nat /\ str_of_binary b = lower s)
  /\
  (forall b, List.length b = 12%nat -> Forall (fun x => (x < 256)%N) b ->
     ObjectId (JStr (str_of_binary b)) = Return (FromHex b))
  /\
  (forall s, is_hex24 s = true -> ObjectId (JStr (lower s)) = ObjectId (JStr s)).
Proof.
  pose proof ObjectId_hex24_read as Hread.
  assert (Hback : forall b, List.length b = 12%nat -> Forall (fun x => (x < 256)%N) b ->
            ObjectId (JStr (str_of_binary b)) = Return (FromHex b)).
  { intros b Hlen Hsmall. unfold ObjectId, str_of_binary.
    rewrite length_hex_of_bytes, Hlen, (fromhex_hex_of_bytes b Hsmall). reflexivity. }
  split; [|split].
  - intros s H. destruct (Hread s H) as (b & H1 & H2 & _ & H3). eauto.
  - exact Hback.
  - intros s H. destruct (Hread s H) as (b & H1 & H2 & H3 & H4).
    rewrite H1, <- H4. apply Hback; assumption.
Qed.

Lemma ObjectId_str_round_trip_run :
  (exists b, ObjectId (JStr "65AB000000000000000000Ff") = Return (FromHex b) /\
             List.length b = 12%nat /\
             str_of_binary b = lower "65AB000000000000000000Ff")
  /\
  ObjectId (JStr (str_of_binary [101; 171; 0; 0; 0; 0; 0; 0; 0; 0; 0; 255]%N))
    = Return (FromHex [101; 171; 0; 0; 0; 0; 0; 0; 0; 0; 0; 255]%N)
  /\
  ObjectId (JStr (lower "65AB000000000000000000Ff"))
    = ObjectId (JStr "65AB000000000000000000Ff").
Proof.
  split; [|split].
  - apply (proj1 ObjectId_str_round_trip "65AB000000000000000000Ff"). reflexivity.
  - apply (proj1 (proj2 ObjectId_str_round_trip)
             [101; 171; 0; 0; 0; 0; 0; 0; 0; 0; 0; 255]%N).
    + reflexivity.
    + repeat constructor.
  - apply (proj2 (proj2 ObjectId_str_round_trip) "65AB000000000000000000Ff"). reflexivity.
Defined.

End IdentifierStrings.

(** ** More on marking attendance *)

Section Marking.

Context {platform : Platform}.

Ltac unfold_handler :=
  unfold hbind, eval, unless, found, gets, write, ret, respond, run.

(** X4.  What [POST /attendance] answers before it reaches the entries, in
    the order of the checks, and always without writing: an empty body is a
    400; a body lacking [course_id], [date] or [records] (or carrying an
    empty one) is a 400; then a [course_id] that fails the format check is a
    400; then a date string that does not parse is a 400, while a date that
    is not a string at all raises a [TypeError] that nothing catches. *)
Theorem mark_attendance_header_rejections (db : database) :
  (forall data, truthy data = false ->
     mark_attendance data db = (Response (error "No data provided") 400, db))
  /\
  (forall members, members <> [] ->
     carries members ["course_id"; "date"; "records"] = false ->
     mark_attendance (JObj members) db
       = (Response (error "Missing required fields: course_id, date, records") 400, db))
  /\
  (forall members course_id,
     carries members ["course_id"; "date"; "records"] = true ->
     lookup "course_id" members = Some course_id ->
     is_valid_objectId course_id = Return false ->
     mark_attendance (JObj members) db = (Response (error "Invalid course_id") 400, db))
  /\
  (forall members course_id date,
     carries members ["course_id"; "date"; "records"] = true ->
     lookup "course_id" members = Some course_id ->
     is_valid_objectId course_id = Return true ->
     lookup "date" members = Some (JStr date) ->
     strptime_Ymd date = None ->
     mark_attendance (JObj members) db
       = (Response (error "Invalid date format. Use YYYY-MM-DD") 400, db))
  /\
  (forall members course_id date,
     carries members ["course_id"; "date"; "records"] = true ->
     lookup "course_id" members = Some course_id ->
     is_valid_objectId course_id = Return true ->
     lookup "date" members = Some date ->
     (forall s, date <> JStr s) ->
     mark_attendance (JObj members) db = (Unhandled TypeError, db)).
Proof.
  assert (Htruthy : forall members, members <> [] -> truthy (JObj members) = true).
  { intros [|m ms] H; [congruence | reflexivity]. }
  assert (Hcarried : forall members,
             carries members ["course_id"; "date"; "records"] = true -> members <> []).
  { intros [|m ms] H; [discriminate H | discriminate]. }
  split; [|split; [|split; [|split]]].
  - intros data H. unfold mark_attendance, mark_attendance_body.
    unfold_handler. rewrite H. reflexivity.
  - intros members Hne Hmissing. unfold mark_attendance, mark_attendance_body.
    rewrite all_present_object, Hmissing, (Htruthy _ Hne). reflexivity.
  - intros members course_id Hcarries Hc Hinvalid.
    unfold mark_attendance, mark_attendance_body.
    rewrite all_present_object, Hcarries, (Htruthy _ (Hcarried _ Hcarries)).
    unfold_handler. cbn [py_getitem]. rewrite Hc, Hinvalid. reflexivity.
  - intros members course_id date Hcarries Hc Hvalid Hd Hparse.
    unfold mark_attendance, mark_attendance_body.
    rewrite all_present_object, Hcarries, (Htruthy _ (Hcarried _ Hcarries)).
    unfold_handler. cbn [py_getitem]. rewrite Hc, Hvalid, Hd.
    cbn [strptime]. rewrite Hparse. reflexivity.
  - intros members course_id date Hcarries Hc Hvalid Hd Hnot.
    unfold mark_attendance, mark_attendance_body.
    rewrite all_present_object, Hcarries, (Htruthy _ (Hcarried _ Hcarries)).
    unfold_handler. cbn [py_getitem]. rewrite Hc, Hvalid, Hd.
    destruct date as [| b | n | s | items | ms]; try reflexivity.
    exfalso. exact (Hnot s eq_refl).
Qed.

(** *** What a request may change *)

Lemma update_first_keys (s c : bytes) (d : datetime) (status notes : json)
    (records records' : list attendance_record) :
  update_first s c d status notes records = Some records' ->
  map record_key records' = map record_key records.
Proof.
  revert records'.
  induction records as [|r rest IH]; intros records' H; [discriminate|].
  cbn [update_first] in H.
  destruct (same_triple s c d r).
  - injection H as <-. reflexivity.
  - destruct (update_first s c d status notes rest) as [rest'|]; [|discriminate].
    injection H as <-. cbn [map]. rewrite (IH rest' eq_refl). reflexivity.
Qed.

Lemma update_one_keys (s c : bytes) (d : datetime) (status notes : json)
    (db db' : database) :
  update_one s c d status notes db = Return db' ->
  exists added,
    map record_key (attendance_collection db')
      = map record_key (attendance_collection db) ++ added /\
    (List.length added <= 1)%nat.
Proof.
  intros H.
  destruct (update_one_inv _ _ _ _ _ _ _ H) as (_ & _ & _ & _ & [[Hup _] | (_ & Happ & _)]).
  - exists []. rewrite (update_first_keys _ _ _ _ _ _ _ Hup), app_nil_r. auto.
  - eexists [_]. rewrite Happ, map_app. split; [reflexivity | cbn; lia].
Qed.

Lemma mark_records_frame (course_id : json) (t : datetime) (records : list json)
    (db : database) :
  let db' := snd (mark_records course_id t records db) in
  students_collection db' = students_collection db /\
  courses_collection db' = courses_collection db /\
  exists added,
    map record_key (attendance_collection db')
      = map record_key (attendance_collection db) ++ added /\
    (List.length added <= List.length records)%nat.
Proof.
  revert db. induction records as [|rec rest IH]; intros db.
  - cbn. repeat split. exists []. rewrite app_nil_r. auto.
  - cbn [mark_records]. unfold hbind.
    destruct (mark_record_cases course_id t rec db)
      as [[r Hr] | (echo & s & c & status & notes & db1 & Hr & Hup)]; rewrite Hr.
    + cbn. repeat split. exists []. rewrite app_nil_r. split; [reflexivity | cbn; lia].
    + destruct (update_one_inv _ _ _ _ _ _ _ Hup) as (Hst & Hco & _).
      destruct (update_one_keys _ _ _ _ _ _ _ Hup) as (added1 & Hk1 & Hl1).
      specialize (IH db1). cbv zeta in IH.
      destruct IH as (Hst' & Hco' & added & Hk & Hl).
      assert (Hsnd : snd (let (s0, db'0) := mark_records course_id t rest db1 in
                          match s0 with
                          | Next a => ret (echo :: a) db'0
                          | Exit r => (Exit r, db'0)
                          end) = snd (mark_records course_id t rest db1)).
      { destruct (mark_records course_id t rest db1) as [[processed | r] db2]; reflexivity. }
      cbv zeta. rewrite Hsnd.
      split; [congruence|]. split; [congruence|].
      exists (added1 ++ added). rewrite Hk, Hk1, app_assoc, length_app.
      split; [reflexivity | cbn [List.length]; lia].
Qed.

(** X5.  Whatever the request and however it ends, [POST /attendance] leaves
    the students and the courses as they were, and in the attendance
    collection it only rewrites status and notes or appends: every document
    that was there is still there, at its place, with its [_id] and its
    (student, course, date) triple. *)
Theorem mark_attendance_only_upserts (data : json) (db : database) :
  let db' := snd (mark_attendance data db) in
  students_collection db' = students_collection db /\
  courses_collection db' = courses_collection db /\
  exists added,
    map record_key (attendance_collection db')
      = map record_key (attendance_collection db) ++ added.
Proof.
  assert (Hsame : students_collection db = students_collection db /\
                  courses_collection db = courses_collection db /\
                  exists added,
                    map record_key (attendance_collection db)
                      = map record_key (attendance_collection db) ++ added).
  { repeat split. exists []. rewrite app_nil_r. reflexivity. }
  unfold mark_attendance, mark_attendance_body. unfold_handler. cbv zeta.
  destruct (truthy data); [|exact Hsame].
  destruct (all_present data _) as [[|]|e]; try exact Hsame.
  destruct (py_getitem data "course_id") as [course_id|e]; try exact Hsame.
  destruct (is_valid_objectId course_id) as [[|]|e]; try exact Hsame.
  destruct (py_getitem data "date") as [date|e]; try exact Hsame.
  destruct (strptime date) as [t|[]]; try exact Hsame.
  destruct (py_getitem data "records") as [records|e]; try exact Hsame.
  destruct (py_iter records) as [items|e]; try exact Hsame.
  pose proof (mark_records_frame course_id t items db) as Hl. cbv zeta in Hl.
  destruct (mark_records course_id t items db) as [[processed | r] db'];
    destruct Hl as (H1 & H2 & added & H3 & _); eauto.
Qed.

(** *** What a 200 means *)









(** *** A whole batch *)

Lemma update_first_other (s c s' c' : bytes) (d d' : datetime) (status notes : json)
    (records records' : list attendance_record) :
  s' <> s ->
  update_first s' c' d' status notes records = Some records' ->
  records_of s c d records' = records_of s c d records.
Proof.
  intros Hne. revert records'.
  induction records as [|r rest IH]; intros records' H; [discriminate|].
  cbn [update_first] in H.
  destruct (same_triple s' c' d' r) eqn:E.
  - injection H as <-. unfold records_of. cbn [filter].
    rewrite same_triple_set_fields.
    assert (Hr : same_triple s c d r = false).
    { apply same_triple_spec in E as (Hs & _ & _).
      destruct (same_triple s c d r) eqn:E'; [|reflexivity].
      apply same_triple_spec in E' as (Hs' & _ & _). congruence. }
    rewrite Hr. reflexivity.
  - destruct (update_first s' c' d' status notes rest) as [rest'|]; [|discriminate].
    injection H as <-. unfold records_of in *. cbn [filter].
    rewrite (IH rest' eq_refl). reflexivity.
Qed.

Lemma update_one_other (s c s' c' : bytes) (d d' : datetime) (status notes : json)
    (db db' : database) :
  s' <> s ->
  update_one s' c' d' status notes db = Return db' ->
  records_of s c d (attendance_collection db') = records_of s c d (attendance_collection db).
Proof.
  intros Hne H.
  destruct (update_one_inv _ _ _ _ _ _ _ H) as (_ & _ & _ & _ & [[Hup _] | (_ & Happ & _)]).
  - exact (update_first_other _ _ _ _ _ _ _ _ _ _ Hne Hup).
  - rewrite Happ, records_of_app. unfold records_of at 2. cbn [filter].
    assert (Hr : same_triple s c d
                   {| att_id := new_oid (issued db); att_student_id := s';
                      att_course_id := c'; att_date := d'; att_status := status;
                      att_notes := notes |} = false).
    { destruct (same_triple s c d _) eqn:E; [|reflexivity].
      apply same_triple_spec in E as (Hs & _ & _). cbn in Hs. congruence. }
    rewrite Hr. apply app_nil_r.
Qed.

Lemma mark_records_batch (course_id : string) (t : datetime) (c : bytes)
    (batch : list (string * json * option json)) :
  ObjectId (JStr course_id) = Return (FromHex c) ->
  forall db,
    existsb (has_oid c) (courses_collection db) = true ->
    Forall (markable (students_collection db)) batch ->
    exists db',
      mark_records (JStr course_id) t (map entry_of batch) db
        = (Next (map (echo_of course_id (isoformat t)) batch), db') /\
      students_collection db' = students_collection db /\
      courses_collection db' = courses_collection db /\
      (forall s, Forall (other_student s) batch ->
         records_of s c t (attendance_collection db')
           = records_of s c t (attendance_collection db)) /\
      (forall pre student_id status notes post s,
         batch = pre ++ (student_id, status, notes) :: post ->
         ObjectId (JStr student_id) = Return (FromHex s) ->
         Forall (other_student s) post ->
         exists r others,
           records_of s c t (attendance_collection db') = r :: others /\
           att_status r = status /\ att_notes r = notes_or_default notes).
Proof.
  intros Hc.
  induction batch as [|[[student_id status] notes] rest IH]; intros db Hcourse Hall.
  - exists db. cbn. repeat split; auto.
    intros [|? ?] ? ? ? ? ? H; discriminate H.
  - inversion Hall as [|e l Hhead Htail]; subst.
    destruct Hhead as (s0 & Hs0 & Hstudent & Htruthy & Hes & Hen).
    destruct (update_one_encodable s0 c t status (notes_or_default notes) db Hes Hen)
      as [db1 Hup].
    destruct (update_one_inv _ _ _ _ _ _ _ Hup) as (Hst1 & Hco1 & _).
    pose proof (mark_record_entry course_id student_id t s0 c status notes db db1
                  Hc Hs0 Hstudent Hcourse Htruthy Hup) as Hrec.
    rewrite <- Hst1 in Htail. rewrite <- Hco1 in Hcourse.
    destruct (IH db1 Hcourse Htail) as (db' & Hrest & Hst' & Hco' & Hkeep & Hlast).
    exists db'.
    split.
    { cbn [map mark_records entry_of]. unfold hbind. rewrite Hrec, Hrest. reflexivity. }
    split; [congruence|]. split; [congruence|].
    split.
    + intros s Hothers. inversion Hothers as [|e l Hh Ht]; subst.
      rewrite (Hkeep s Ht).
      apply (update_one_other s c s0 c t t status (notes_or_default notes) db db1);
        [|exact Hup].
      intros ->. apply Hh. exact Hs0.
    + intros pre sid st n post s Hsplit Hs Hothers.
      destruct pre as [|e pre'].
      * cbn [app] in Hsplit. injection Hsplit as <- <- <- <-.
        assert (s = s0) as -> by congruence.
        rewrite (Hkeep s0 Hothers).
        destruct (update_one_records_of _ _ _ _ _ _ _ Hup) as (r & others & Hr & H1 & H2 & _).
        eauto.
      * cbn [app] in Hsplit. injection Hsplit as _ Hsplit.
        exact (Hlast pre' sid st n post s Hsplit Hs Hothers).
Qed.

(** X7.  A batch whose entries all pass their checks is processed whole:
    the answer is 200 with the entries echoed one for one in input order, and
    when a student appears more than once in the batch it is the last of the
    student's entries that the stored record shows. *)
Theorem mark_attendance_batch (course_id date : string) (ordinal : Z) (c : bytes)
    (batch : list (string * json * option json)) (db : database) :
  ObjectId (JStr course_id) = Return (FromHex c) ->
  strptime_Ymd date = Some ordinal -> date <> "" ->
  existsb (has_oid c) (courses_collection db) = true ->
  batch <> [] ->
  Forall (markable (students_collection db)) batch ->
  exists db',
    mark_attendance (mark_request course_id date (map entry_of batch)) db
      = (Response
           (saved (map (echo_of course_id (isoformat (midnight ordinal))) batch)) 200, db') /\
    (forall pre student_id status notes post s,
       batch = pre ++ (student_id, status, notes) :: post ->
       ObjectId (JStr student_id) = Return (FromHex s) ->
       Forall (other_student s) post ->
       exists r others,
         records_of s c (midnight ordinal) (attendance_collection db') = r :: others /\
         att_status r = status /\ att_notes r = notes_or_default notes).
Proof.
  intros Hc Hdate Hne Hcourse Hbatch Hall.
  destruct (mark_records_batch course_id (midnight ordinal) c batch Hc db Hcourse Hall)
    as (db' & Hrun & _ & _ & _ & Hlast).
  exists db'. split; [|exact Hlast].
  destruct (ObjectId_FromHex_valid _ _ Hc) as (Hvalid & _ & _).
  rewrite (mark_attendance_request _ _ ordinal); try assumption.
  - rewrite Hrun. reflexivity.
  - destruct batch; [congruence | discriminate].
Qed.

(** *** Reading back *)

Lemma get_attendance_day_listing (course_id date_str : string) (c : bytes) (ordinal : Z)
    (db : database) :
  ObjectId (JStr course_id) = Return (FromHex c) ->
  strptime_Ymd date_str = Some ordinal ->
  (0 <= ordinal < MAXORDINAL)%Z ->
  get_attendance_by_course_and_date course_id date_str db =
    Response
      (JArr (map stringify
               (filter (fun r => bytes_eqb (att_course_id r) c
                                 && (toordinal (att_date r) =? ordinal)%Z)
                       (attendance_collection db)))) 200.
Proof.
  intros Hc Hdate Hrange.
  destruct (ObjectId_FromHex_valid _ _ Hc) as (Hvalid & _ & _).
  unfold get_attendance_by_course_and_date. rewrite Hvalid.
  cbn [strptime]. rewrite Hdate. cbn [obind].
  unfold add_days. rewrite toordinal_midnight.
  assert (Hin : ((0 <? ordinal + 1) && (ordinal + 1 <=? MAXORDINAL))%Z = true).
  { apply andb_true_intro. split; [apply Z.ltb_lt | apply Z.leb_le]; lia. }
  rewrite Hin. cbn [obind]. rewrite Hc. cbn [obind find_by_course_and_date].
  do 3 f_equal. apply filter_ext. intros r.
  rewrite <- andb_assoc, within_day. reflexivity.
Qed.

(** X8.  What is marked can be read back.  After a student is marked for a
    course on a date, [GET /attendance/<course_id>/<date>] with the same
    course identifier and date string answers 200 with a list that holds the
    record: student and course identifiers as the lower-case form of the
    strings that were sent, the date at midnight, the status and the notes of
    the request. *)
Theorem mark_then_get (course_id date student_id : string) (ordinal : Z) (s c : bytes)
    (status : json) (notes : option json) (db : database) :
  is_hex24 course_id = true -> is_hex24 student_id = true ->
  ObjectId (JStr course_id) = Return (FromHex c) ->
  ObjectId (JStr student_id) = Return (FromHex s) ->
  strptime_Ymd date = Some ordinal -> date <> "" ->
  (0 <= ordinal < MAXORDINAL)%Z ->
  existsb (has_oid s) (students_collection db) = true ->
  existsb (has_oid c) (courses_collection db) = true ->
  truthy status = true ->
  bson_encodable status = true -> bson_encodable (notes_or_default notes) = true ->
  exists body db1 listed id,
    mark_attendance (mark_request course_id date [entry student_id status notes]) db
      = (Response body 200, db1) /\
    get_attendance_by_course_and_date course_id date db1 = Response (JArr listed) 200 /\
    In (JObj [("_id", JStr id);
              ("student_id", JStr (lower student_id));
              ("course_id", JStr (lower course_id));
              ("date", JStr (isoformat (midnight ordinal)));
              ("status", status);
              ("notes", notes_or_default notes)]) listed.
Proof.
  intros Hhc Hhs Hc Hs Hdate Hne Hrange Hstudent Hcourse Htruthy He Hn.
  set (t := midnight ordinal).
  destruct (update_one_encodable s c t status (notes_or_default notes) db He Hn)
    as [db1 Hup].
  destruct (update_one_records_of _ _ _ _ _ _ _ Hup) as (r & others & Hr & Hs1 & Hn1 & _).
  assert (Hin : In r (attendance_collection db1) /\ same_triple s c t r = true).
  { apply filter_In. unfold records_of in Hr. rewrite Hr. left. reflexivity. }
  destruct Hin as [Hin Htriple].
  apply same_triple_spec in Htriple as (Hrs & Hrc & Hrd).
  destruct (ObjectId_hex24_read _ Hhc) as (c' & Hc' & _ & _ & Hcstr).
  destruct (ObjectId_hex24_read _ Hhs) as (s' & Hs' & _ & _ & Hsstr).
  assert (c' = c) as -> by congruence.
  assert (s' = s) as -> by congruence.
  eexists _, db1, _, (str_of_binary (att_id r)).
  split; [eapply mark_attendance_single; eassumption|].
  split; [apply (get_attendance_day_listing _ _ c ordinal); assumption|].
  apply in_map_iff. exists r. split.
  - unfold stringify. rewrite Hrs, Hrc, Hrd, Hs1, Hn1, Hsstr, Hcstr. reflexivity.
  - apply filter_In. split; [exact Hin|].
    rewrite Hrc, Hrd, bytes_eqb_refl. unfold t. rewrite toordinal_midnight.
    apply Z.eqb_refl.
Qed.

(** X9.  The two reading routes agree: whenever
    [GET /attendance/<course_id>/<date>] answers 200, each item of its list
    is an item of the list of [GET /attendance], rendered the same. *)
Theorem get_attendance_within_all (course_id date_str : string) (db : database)
    (listed : json) :
  get_attendance_by_course_and_date course_id date_str db = Response listed 200 ->
  exists some all,
    listed = JArr some /\
    get_all_attendance db = Response (JArr all) 200 /\
    incl some all.
Proof.
  unfold get_attendance_by_course_and_date.
  destruct (is_valid_objectId (JStr course_id)) as [[|]|e]; try discriminate.
  cbn [strptime].
  destruct (strptime_Ymd date_str) as [ordinal|]; cbn [obind]; [|discriminate].
  destruct (add_days (midnight ordinal) 1) as [stop|[]]; cbn [obind]; try discriminate.
  destruct (ObjectId (JStr course_id)) as [oid|[]]; cbn [obind]; try discriminate.
  intros H. injection H as <-.
  eexists _, _. split; [reflexivity|]. split; [reflexivity|].
  intros x Hx. apply in_map_iff in Hx as (r & <- & Hr). apply in_map.
  destruct oid as [b|]; [|destruct Hr].
  cbn [find_by_course_and_date] in Hr. apply filter_In in Hr. tauto.
Qed.

(** *** Values that are not objects *)

Lemma all_present_non_object (c : json) (field : string) (rest : list string) :
  (forall members, c <> JObj members) ->
  all_present c (field :: rest) = Return false \/
  all_present c (field :: rest) = Raise TypeError.
Proof.
  intros Hnot.
  destruct c as [| b | n | s | items | members]; cbn [all_present py_in obind]; auto.
  - destruct (is_substring field s); cbn; auto.
  - destruct (existsb _ items); cbn; auto.
  - exfalso. exact (Hnot members eq_refl).
Qed.

(** X10.  An item of [records] that is not an object is never processed and
    ends the batch without a write: with [null], a boolean or a number the
    membership test raises a [TypeError] that nothing catches; a string or a
    list is answered 400 unless it happens to contain ["student_id"], in which
    case subscripting it raises the [TypeError]. *)
Theorem mark_records_non_object_item (course_id : json) (t : datetime) (rec : json)
    (rest : list json) (db : database) :
  (forall members, rec <> JObj members) ->
  let result := mark_records course_id t (rec :: rest) db in
  (result = (Exit (Unhandled TypeError), db) \/
   result = (Exit (Response (error "Each record must include student_id and status") 400),
             db))
  /\
  (py_in "student_id" rec = Return false ->
   result = (Exit (Response (error "Each record must include student_id and status") 400),
             db))
  /\
  (py_in "student_id" rec <> Return false ->
   result = (Exit (Unhandled TypeError), db)).
Proof.
  intros Hnot result.
  assert (Hexit : forall r,
             mark_record course_id t rec db = (Exit r, db) -> result = (Exit r, db)).
  { intros r H. apply mark_records_exit. exact H. }
  assert (Hfalse : all_present rec ["student_id"; "status"] = Return false ->
                   result = (Exit (Response
                     (error "Each record must include student_id and status") 400), db)).
  { intros H. apply Hexit. unfold mark_record. rewrite H. reflexivity. }
  assert (Hraise : all_present rec ["student_id"; "status"] = Raise TypeError ->
                   result = (Exit (Unhandled TypeError), db)).
  { intros H. apply Hexit. unfold mark_record. rewrite H. reflexivity. }
  split; [|split].
  - destruct (all_present_non_object rec "student_id" ["status"] Hnot) as [H | H]; auto.
  - intros Hin. apply Hfalse. cbn [all_present]. rewrite Hin. reflexivity.
  - intros Hin. apply Hraise.
    destruct rec as [| b | n | s | items | members]; cbn [all_present py_in obind] in *;
      try reflexivity.
    + destruct (is_substring "student_id" s); [reflexivity | congruence].
    + destruct (existsb _ items); [reflexivity | congruence].
    + exfalso. exact (Hnot members eq_refl).
Qed.

End Marking.

(** ** More on creating students and courses *)

Section Creating.

Context {platform : Platform}.

Ltac unfold_handler :=
  unfold hbind, eval, unless, found, gets, write, ret, respond, run.

(** The identifier under which a new document is stored: the client's own
    [_id] if the document carries one, a new one from the store otherwise. *)
Lemma insert_one_accepted (members : list (string * json)) (db : database) :
  insert_accepted members (students_collection db) = true ->
  insert_one (JObj members) db =
    match lookup "_id" members with
    | Some v =>
        Return (KeyJson v,
                {| students_collection :=
                     students_collection db ++
                     [{| doc_id := KeyJson v; doc_fields := dict_remove "_id" members |}];
                   courses_collection := courses_collection db;
                   attendance_collection := attendance_collection db;
                   issued := issued db |})
    | None =>
        Return (KeyOid (new_oid (issued db)),
                {| students_collection :=
                     students_collection db ++
                     [{| doc_id := KeyOid (new_oid (issued db));
                         doc_fields := dict_remove "_id" members |}];
                   courses_collection := courses_collection db;
                   attendance_collection := attendance_collection db;
                   issued := S (issued db) |})
    end.
Proof.
  intros H. unfold insert_one. rewrite H.
  destruct (lookup "_id" members); reflexivity.
Qed.

Lemma insert_one_course_accepted (members : list (string * json)) (db : database) :
  insert_accepted members (courses_collection db) = true ->
  insert_one_course (JObj members) db =
    match lookup "_id" members with
    | Some v =>
        Return (KeyJson v,
                {| students_collection := students_collection db;
                   courses_collection :=
                     courses_collection db ++
                     [{| doc_id := KeyJson v; doc_fields := dict_remove "_id" members |}];
                   attendance_collection := attendance_collection db;
                   issued := issued db |})
    | None =>
        Return (KeyOid (new_oid (issued db)),
                {| students_collection := students_collection db;
                   courses_collection :=
                     courses_collection db ++
                     [{| doc_id := KeyOid (new_oid (issued db));
                         doc_fields := dict_remove "_id" members |}];
                   attendance_collection := attendance_collection db;
                   issued := S (issued db) |})
    end.
Proof.
  intros H. unfold insert_one_course. rewrite H.
  destruct (lookup "_id" members); reflexivity.
Qed.

Lemma insert_one_frame (data : json) (db db' : database) (key : doc_key) :
  insert_one data db = Return (key, db') ->
  courses_collection db' = courses_collection db /\
  attendance_collection db' = attendance_collection db /\
  exists doc, students_collection db' = students_collection db ++ [doc] /\ doc_id doc = key.
Proof.
  unfold insert_one. destruct data as [| | | | |members]; try discriminate.
  destruct (insert_accepted members (students_collection db)); [|discriminate].
  destruct (lookup "_id" members); intros H; injection H as <- <-; cbn; eauto.
Qed.

Lemma insert_one_course_frame (data : json) (db db' : database) (key : doc_key) :
  insert_one_course data db = Return (key, db') ->
  students_collection db' = students_collection db /\
  attendance_collection db' = attendance_collection db /\
  exists doc, courses_collection db' = courses_collection db ++ [doc] /\ doc_id doc = key.
Proof.
  unfold insert_one_course. destruct data as [| | | | |members]; try discriminate.
  destruct (insert_accepted members (courses_collection db)); [|discriminate].
  destruct (lookup "_id" members); intros H; injection H as <- <-; cbn; eauto.
Qed.

(** X11.  [POST /students] writes one document or nothing.  Whatever the
    request, the courses and the attendance records are left as they were;
    the answer is 201 exactly when one document was appended to the students,
    and with any other answer the students are unchanged. *)
Theorem add_student_writes_one_or_nothing (data : json) (db : database) :
  let r := fst (add_student data db) in
  let db' := snd (add_student data db) in
  courses_collection db' = courses_collection db /\
  attendance_collection db' = attendance_collection db /\
  ((status_of r <> Some 201%Z /\ students_collection db' = students_collection db) \/
   (status_of r = Some 201%Z /\
    exists doc, students_collection db' = students_collection db ++ [doc])).
Proof.
  assert (Hsame : forall r, status_of r <> Some 201%Z ->
    courses_collection db = courses_collection db /\
    attendance_collection db = attendance_collection db /\
    ((status_of r <> Some 201%Z /\ students_collection db = students_collection db) \/
     (status_of r = Some 201%Z /\
      exists doc, students_collection db = students_collection db ++ [doc]))).
  { intros r H. auto. }
  unfold add_student, add_student_body. unfold_handler. cbv zeta.
  destruct (truthy data); [|apply Hsame; discriminate].
  destruct (all_present data _) as [[|]|e] eqn:Hall; try (apply Hsame; discriminate).
  destruct (all_present_true_is_object _ _ _ Hall) as [members ->].
  cbn [py_getitem].
  destruct (lookup "student_id" members) as [student_id|]; [|apply Hsame; discriminate].
  destruct (find_one_field "student_id" student_id (students_collection db)) as [[d|]|e];
    try (apply Hsame; discriminate).
  destruct (lookup "email" members) as [email|]; [|apply Hsame; discriminate].
  destruct (find_one_field "email" email (students_collection db)) as [[d|]|e];
    try (apply Hsame; discriminate).
  destruct (insert_one (JObj members) db) as [[key db1]|e] eqn:Hins;
    [|apply Hsame; discriminate].
  destruct (insert_one_frame _ _ _ _ Hins) as (Hco & Hat & doc & Hst & _).
  cbn. split; [exact Hco|]. split; [exact Hat|].
  right. split; [reflexivity | exists doc; exact Hst].
Qed.

(** X12.  What [POST /students] answers to an unusable body, without
    writing: an empty body is a 400 "No data provided"; a body lacking one of
    [student_id], [first_name], [last_name], [email], or carrying an empty
    one, is a 400 that names the four fields. *)
Theorem add_student_rejects_incomplete (db : database) :
  (forall data, truthy data = false ->
     add_student data db = (Response (error "No data provided") 400, db))
  /\
  (forall members, members <> [] ->
     carries members ["student_id"; "first_name"; "last_name"; "email"] = false ->
     add_student (JObj members) db
       = (Response
            (error "Missing required fields: student_id, first_name, last_name, email") 400,
          db)).
Proof.
  split.
  - intros data H. unfold add_student, add_student_body. unfold_handler.
    rewrite H. reflexivity.
  - intros members Hne Hmissing. unfold add_student, add_student_body.
    rewrite all_present_object, Hmissing.
    destruct members; [congruence | reflexivity].
Qed.

(** X13.  A student that was created is listed.  When neither lookup finds
    a student, and the store takes the document, [POST /students] answers 201
    with the request's fields and the new identifier as a string, and
    [GET /students] afterwards lists what it listed before followed by the
    new student, under that same identifier string. *)
Theorem add_student_then_listed (members : list (string * json)) (student_id email : json)
    (db : database) :
  carries members ["student_id"; "first_name"; "last_name"; "email"] = true ->
  lookup "student_id" members = Some student_id ->
  lookup "email" members = Some email ->
  find_one_field "student_id" student_id (students_collection db) = Return None ->
  find_one_field "email" email (students_collection db) = Return None ->
  insert_accepted members (students_collection db) = true ->
  let id := str_of_key (match lookup "_id" members with
                        | Some v => KeyJson v
                        | None => KeyOid (new_oid (issued db))
                        end) in
  exists db',
    add_student (JObj members) db
      = (Response (JObj (dict_set "_id" (JStr id) members)) 201, db') /\
    get_students db' =
      Response (JArr (map with_str_id (students_collection db) ++
                      [JObj (("_id", JStr id) :: dict_remove "_id" members)])) 200.
Proof.
  intros Hcarries Hsid Hemail Hnone Hnone' Hok id.
  assert (Htruthy : truthy (JObj members) = true).
  { destruct members; [discriminate Hsid | reflexivity]. }
  pose proof (insert_one_accepted members db Hok) as Hins.
  unfold add_student, add_student_body.
  rewrite all_present_object, Hcarries, Htruthy.
  unfold_handler. cbn [py_getitem]. rewrite Hsid, Hnone, Hemail, Hnone', Hins.
  unfold id, get_students.
  destruct (lookup "_id" members) as [v|]; eexists; (split; [reflexivity|]);
    cbn [students_collection]; rewrite map_app; reflexivity.
Qed.

(** X14.  What [POST /courses] refuses, without writing: an empty body (400),
    a body lacking [course_code] or [course_name] or carrying an empty one
    (400), and a [course_code] that the lookup finds in the collection
    (409). *)
Theorem add_course_rejections (db : database) :
  (forall data, truthy data = false ->
     add_course data db = (Response (error "No data provided") 400, db))
  /\
  (forall members, members <> [] ->
     carries members ["course_code"; "course_name"] = false ->
     add_course (JObj members) db
       = (Response (error "Missing required fields: course_code, course_name") 400, db))
  /\
  (forall members course_code d,
     carries members ["course_code"; "course_name"] = true ->
     lookup "course_code" members = Some course_code ->
     find_one_field "course_code" course_code (courses_collection db) = Return (Some d) ->
     add_course (JObj members) db
       = (Response (error "Course with this code already exists") 409, db)).
Proof.
  split; [|split].
  - intros data H. unfold add_course, add_course_body. unfold_handler.
    rewrite H. reflexivity.
  - intros members Hne Hmissing. unfold add_course, add_course_body.
    rewrite all_present_object, Hmissing.
    destruct members; [congruence | reflexivity].
  - intros members course_code d Hcarries Hcode Hfound.
    unfold add_course, add_course_body.
    rewrite all_present_object, Hcarries.
    assert (Htruthy : truthy (JObj members) = true).
    { destruct members; [discriminate Hcode | reflexivity]. }
    rewrite Htruthy. unfold_handler. cbn [py_getitem]. rewrite Hcode, Hfound. reflexivity.
Qed.

(** X15.  A course that was created is listed.  When the lookup finds no
    course with the code, and the store takes the document, [POST /courses]
    answers 201 with the request's fields and the new identifier as a string,
    the students and the attendance records are untouched, and [GET /courses]
    afterwards lists what it listed before followed by the new course, under
    that same identifier string. *)
Theorem add_course_then_listed (members : list (string * json)) (course_code : json)
    (db : database) :
  carries members ["course_code"; "course_name"] = true ->
  lookup "course_code" members = Some course_code ->
  find_one_field "course_code" course_code (courses_collection db) = Return None ->
  insert_accepted members (courses_collection db) = true ->
  let id := str_of_key (match lookup "_id" members with
                        | Some v => KeyJson v
                        | None => KeyOid (new_oid (issued db))
                        end) in
  exists db',
    add_course (JObj members) db
      = (Response (JObj (dict_set "_id" (JStr id) members)) 201, db') /\
    students_collection db' = students_collection db /\
    attendance_collection db' = attendance_collection db /\
    get_courses db' =
      Response (JArr (map with_str_id (courses_collection db) ++
                      [JObj (("_id", JStr id) :: dict_remove "_id" members)])) 200.
Proof.
  intros Hcarries Hcode Hnone Hok id.
  assert (Htruthy : truthy (JObj members) = true).
  { destruct members; [discriminate Hcode | reflexivity]. }
  pose proof (insert_one_course_accepted members db Hok) as Hins.
  unfold add_course, add_course_body.
  rewrite all_present_object, Hcarries, Htruthy.
  unfold_handler. cbn [py_getitem]. rewrite Hcode, Hnone, Hins.
  unfold id, get_courses.
  destruct (lookup "_id" members) as [v|]; eexists; (split; [reflexivity|]);
    cbn [students_collection attendance_collection courses_collection];
    rewrite map_app; auto.
Qed.

(** X16.  A body that is not a JSON object is never stored nor processed by
    the three POST routes: each answers it 400 ("No data provided" when the
    value is empty, the missing-fields message otherwise) or lets a
    [TypeError] escape, and writes nothing. *)
Theorem non_object_bodies (data : json) (db : database) :
  (forall members, data <> JObj members) ->
  (mark_attendance data db = (Response (error "No data provided") 400, db) \/
   mark_attendance data db
     = (Response (error "Missing required fields: course_id, date, records") 400, db) \/
   mark_attendance data db = (Unhandled TypeError, db))
  /\
  (add_student data db = (Response (error "No data provided") 400, db) \/
   add_student data db
     = (Response
          (error "Missing required fields: student_id, first_name, last_name, email") 400,
        db) \/
   add_student data db = (Unhandled TypeError, db))
  /\
  (add_course data db = (Response (error "No data provided") 400, db) \/
   add_course data db
     = (Response (error "Missing required fields: course_code, course_name") 400, db) \/
   add_course data db = (Unhandled TypeError, db)).
Proof.
  intros Hnot.
  split; [|split].
  - unfold mark_attendance, mark_attendance_body. unfold_handler.
    destruct (truthy data); [|auto].
    destruct (all_present_non_object data "course_id" ["date"; "records"] Hnot) as [H | H];
      rewrite H; auto.
  - unfold add_student, add_student_body. unfold_handler.
    destruct (truthy data); [|auto].
    destruct (all_present_non_object data "student_id"
                ["first_name"; "last_name"; "email"] Hnot) as [H | H];
      rewrite H; auto.
  - unfold add_course, add_course_body. unfold_handler.
    destruct (truthy data); [|auto].
    destruct (all_present_non_object data "course_code" ["course_name"] Hnot) as [H | H];
      rewrite H; auto.
Qed.

(** *** From creation to marking *)

Lemma ObjectId_of_new_oid (b : bytes) :
  List.length b = 12%nat -> Forall (fun x => (x < 256)%N) b ->
  ObjectId (JStr (str_of_binary b)) = Return (FromHex b).
Proof.
  intros Hlen Hsmall. unfold ObjectId, str_of_binary.
  rewrite length_hex_of_bytes, Hlen, (fromhex_hex_of_bytes b Hsmall). reflexivity.
Qed.

Lemma has_oid_appended (b : bytes) (docs : list document) (fields : list (string * json)) :
  existsb (has_oid b) (docs ++ [{| doc_id := KeyOid b; doc_fields := fields |}]) = true.
Proof.
  rewrite existsb_app. cbn. unfold has_oid. cbn. rewrite bytes_eqb_refl.
  apply orb_true_iff. right. reflexivity.
Qed.

Lemma add_student_created (members : list (string * json)) (student_id email : json)
    (db : database) :
  carries members ["student_id"; "first_name"; "last_name"; "email"] = true ->
  lookup "student_id" members = Some student_id ->
  lookup "email" members = Some email ->
  lookup "_id" members = None ->
  find_one_field "student_id" student_id (students_collection db) = Return None ->
  find_one_field "email" email (students_collection db) = Return None ->
  insert_accepted members (students_collection db) = true ->
  add_student (JObj members) db =
    (Response (JObj (dict_set "_id" (JStr (str_of_binary (new_oid (issued db)))) members)) 201,
     {| students_collection :=
          students_collection db ++
          [{| doc_id := KeyOid (new_oid (issued db));
              doc_fields := dict_remove "_id" members |}];
        courses_collection := courses_collection db;
        attendance_collection := attendance_collection db;
        issued := S (issued db) |}).
Proof.
  intros Hcarries Hsid Hemail Hnoid Hnone Hnone' Hok.
  assert (Htruthy : truthy (JObj members) = true).
  { destruct members; [discriminate Hsid | reflexivity]. }
  pose proof (insert_one_accepted members db Hok) as Hins. rewrite Hnoid in Hins.
  unfold add_student, add_student_body.
  rewrite all_present_object, Hcarries, Htruthy.
  unfold_handler. cbn [py_getitem]. rewrite Hsid, Hnone, Hemail, Hnone', Hins.
  reflexivity.
Qed.

Lemma add_course_created (members : list (string * json)) (course_code : json)
    (db : database) :
  carries members ["course_code"; "course_name"] = true ->
  lookup "course_code" members = Some course_code ->
  lookup "_id" members = None ->
  find_one_field "course_code" course_code (courses_collection db) = Return None ->
  insert_accepted members (courses_collection db) = true ->
  add_course (JObj members) db =
    (Response (JObj (dict_set "_id" (JStr (str_of_binary (new_oid (issued db)))) members)) 201,
     {| students_collection := students_collection db;
        courses_collection :=
          courses_collection db ++
          [{| doc_id := KeyOid (new_oid (issued db));
              doc_fields := dict_remove "_id" members |}];
        attendance_collection := attendance_collection db;
        issued := S (issued db) |}).
Proof.
  intros Hcarries Hcode Hnoid Hnone Hok.
  assert (Htruthy : truthy (JObj members) = true).
  { destruct members; [discriminate Hcode | reflexivity]. }
  pose proof (insert_one_course_accepted members db Hok) as Hins. rewrite Hnoid in Hins.
  unfold add_course, add_course_body.
  rewrite all_present_object, Hcarries, Htruthy.
  unfold_handler. cbn [py_getitem]. rewrite Hcode, Hnone, Hins.
  reflexivity.
Qed.

(** X17.  The identifiers handed out on creation are the ones marking takes.
    A student and then a course are created, each without an [_id] of its
    own and each given by the store an identifier of twelve bytes; attendance
    is then marked with the two [_id] strings of the 201 answers: the entry
    passes the format checks and both existence checks, and the call
    answers 200. *)
Theorem created_then_marked
    (student course : list (string * json)) (student_id email course_code : json)
    (date : string) (ordinal : Z) (status : json) (notes : option json) (db : database) :
  carries student ["student_id"; "first_name"; "last_name"; "email"] = true ->
  lookup "student_id" student = Some student_id ->
  lookup "email" student = Some email ->
  lookup "_id" student = None ->
  find_one_field "student_id" student_id (students_collection db) = Return None ->
  find_one_field "email" email (students_collection db) = Return None ->
  insert_accepted student (students_collection db) = true ->
  carries course ["course_code"; "course_name"] = true ->
  lookup "course_code" course = Some course_code ->
  lookup "_id" course = None ->
  find_one_field "course_code" course_code (courses_collection db) = Return None ->
  insert_accepted course (courses_collection db) = true ->
  List.length (new_oid (issued db)) = 12%nat ->
  Forall (fun x => (x < 256)%N) (new_oid (issued db)) ->
  List.length (new_oid (S (issued db))) = 12%nat ->
  Forall (fun x => (x < 256)%N) (new_oid (S (issued db))) ->
  strptime_Ymd date = Some ordinal -> date <> "" ->
  truthy status = true ->
  bson_encodable status = true -> bson_encodable (notes_or_default notes) = true ->
  exists sid cid db1 db2 db3 body,
    add_student (JObj student) db
      = (Response (JObj (dict_set "_id" (JStr sid) student)) 201, db1) /\
    add_course (JObj course) db1
      = (Response (JObj (dict_set "_id" (JStr cid) course)) 201, db2) /\
    mark_attendance (mark_request cid date [entry sid status notes]) db2
      = (Response body 200, db3).
Proof.
  intros Hcs Hsid Hemail Hsnoid Hnone Hnone' Hoks Hcc Hcode Hcnoid Hnonec Hokc
         Hl0 Hb0 Hl1 Hb1 Hdate Hne Htruthy He Hn.
  set (s := new_oid (issued db)) in *. set (c := new_oid (S (issued db))) in *.
  pose proof (add_student_created student student_id email db
                Hcs Hsid Hemail Hsnoid Hnone Hnone' Hoks) as Hadd.
  fold s in Hadd.
  set (db1 := {| students_collection :=
                   students_collection db ++
                   [{| doc_id := KeyOid s; doc_fields := dict_remove "_id" student |}];
                 courses_collection := courses_collection db;
                 attendance_collection := attendance_collection db;
                 issued := S (issued db) |}) in *.
  pose proof (add_course_created course course_code db1 Hcc Hcode Hcnoid Hnonec Hokc) as Haddc.
  cbn [issued courses_collection students_collection attendance_collection db1] in Haddc.
  fold c in Haddc.
  set (db2 := {| students_collection :=
                   students_collection db ++
                   [{| doc_id := KeyOid s; doc_fields := dict_remove "_id" student |}];
                 courses_collection :=
                   courses_collection db ++
                   [{| doc_id := KeyOid c; doc_fields := dict_remove "_id" course |}];
                 attendance_collection := attendance_collection db;
                 issued := S (S (issued db)) |}) in *.
  destruct (update_one_encodable s c (midnight ordinal) status (notes_or_default notes)
              db2 He Hn) as [db3 Hup].
  exists (str_of_binary s), (str_of_binary c), db1, db2, db3.
  eexists.
  split; [exact Hadd|]. split; [exact Haddc|].
  eapply mark_attendance_single with (s := s) (c := c); try eassumption.
  - apply ObjectId_of_new_oid; assumption.
  - apply ObjectId_of_new_oid; assumption.
  - apply has_oid_appended.
  - apply has_oid_appended.
Qed.

End Creating.

(** ** More runs on the reference platform *)

Section MoreRuns.

#[local] Existing Instance Reference.platform.

Lemma mark_attendance_header_rejections_run :
  mark_attendance (JObj []) Sample.db = (Response (error "No data provided") 400, Sample.db)
  /\
  mark_attendance (JObj [("course_id", JStr Sample.course_oid); ("date", JStr "")]) Sample.db
    = (Response (error "Missing required fields: course_id, date, records") 400, Sample.db)
  /\
  mark_attendance (mark_request "CS101" "2024-03-01" [JNull]) Sample.db
    = (Response (error "Invalid course_id") 400, Sample.db)
  /\
  mark_attendance (mark_request Sample.course_oid "01/03/2024" [JNull]) Sample.db
    = (Response (error "Invalid date format. Use YYYY-MM-DD") 400, Sample.db)
  /\
  mark_attendance
    (JObj [("course_id", JStr Sample.course_oid); ("date", JNum 20240301);
           ("records", JArr [JNull])]) Sample.db
    = (Unhandled TypeError, Sample.db).
Proof.
  pose proof (mark_attendance_header_rejections Sample.db) as (H1 & H2 & H3 & H4 & H5).
  split; [|split; [|split; [|split]]].
  - apply H1. reflexivity.
  - apply H2; [discriminate | reflexivity].
  - apply (H3 _ (JStr "CS101")); reflexivity.
  - apply (H4 _ (JStr Sample.course_oid) "01/03/2024"); reflexivity.
  - apply (H5 _ (JStr Sample.course_oid) (JNum 20240301)); try reflexivity.
    intros s; discriminate.
Defined.


(** Three entries for two students: the first student is marked twice. *)
Lemma mark_attendance_batch_run :
  exists db' r1 r2,
    mark_attendance
      (mark_request Sample.course_oid "2024-03-01"
         [entry Sample.student_oid (JStr "present") None;
          entry Sample.other_oid (JStr "late") (Some (JStr "bus"));
          entry Sample.student_oid (JStr "absent") None]) Sample.classroom
      = (Response
           (saved [echo Sample.course_oid "2024-03-01T00:00:00" Sample.student_oid
                     (JStr "present") None;
                   echo Sample.course_oid "2024-03-01T00:00:00" Sample.other_oid
                     (JStr "late") (Some (JStr "bus"));
                   echo Sample.course_oid "2024-03-01T00:00:00" Sample.student_oid
                     (JStr "absent") None]) 200, db') /\
    hd_error (records_of Sample.student_binary Sample.course_binary (midnight 738946)
                (attendance_collection db')) = Some r1 /\
    att_status r1 = JStr "absent" /\
    hd_error (records_of Sample.other_binary Sample.course_binary (midnight 738946)
                (attendance_collection db')) = Some r2 /\
    att_status r2 = JStr "late" /\ att_notes r2 = JStr "bus".
Proof.
  destruct (mark_attendance_batch Sample.course_oid "2024-03-01" 738946
              Sample.course_binary
              [(Sample.student_oid, JStr "present", None);
               (Sample.other_oid, JStr "late", Some (JStr "bus"));
               (Sample.student_oid, JStr "absent", None)] Sample.classroom)
    as (db' & Hrun & Hlast); try reflexivity; try discriminate.
  { repeat constructor.
    - exists Sample.student_binary. repeat split; reflexivity.
    - exists Sample.other_binary. repeat split; reflexivity.
    - exists Sample.student_binary. repeat split; reflexivity. }
  destruct (Hlast [(Sample.student_oid, JStr "present", None);
                   (Sample.other_oid, JStr "late", Some (JStr "bus"))]
              Sample.student_oid (JStr "absent") None [] Sample.student_binary
              eq_refl eq_refl (Forall_nil _)) as (r1 & o1 & Hr1 & Hs1 & _).
  destruct (Hlast [(Sample.student_oid, JStr "present", None)]
              Sample.other_oid (JStr "late") (Some (JStr "bus"))
              [(Sample.student_oid, JStr "absent", None)] Sample.other_binary
              eq_refl eq_refl) as (r2 & o2 & Hr2 & Hs2 & Hn2).
  { constructor; [|constructor]. unfold other_student. cbn. discriminate. }
  exists db', r1, r2.
  split; [exact Hrun|].
  rewrite Hr1, Hr2. auto.
Defined.

Lemma mark_then_get_run :
  exists body db1 listed id,
    mark_attendance
      (mark_request "650000000000000000000002" "2024-03-01"
         [entry "650000000000000000000001" (JStr "present") None]) Sample.db
      = (Response body 200, db1) /\
    get_attendance_by_course_and_date "650000000000000000000002" "2024-03-01" db1
      = Response (JArr listed) 200 /\
    In (JObj [("_id", JStr id);
              ("student_id", JStr "650000000000000000000001");
              ("course_id", JStr "650000000000000000000002");
              ("date", JStr "2024-03-01T00:00:00");
              ("status", JStr "present");
              ("notes", JStr "")]) listed.
Proof.
  refine (mark_then_get "650000000000000000000002" "2024-03-01" "650000000000000000000001"
            738946 Sample.student_binary Sample.course_binary (JStr "present") None Sample.db
            _ _ _ _ _ _ _ _ _ _ _ _);
    try reflexivity; try discriminate.
  unfold MAXORDINAL. lia.
Defined.

Lemma get_attendance_within_all_run :
  let db1 :=
    snd (mark_attendance
           (mark_request Sample.course_oid "2024-03-01"
              [entry Sample.student_oid (JStr "present") None]) Sample.db) in
  exists some all,
    JArr (map stringify (attendance_collection db1)) = JArr some /\
    get_all_attendance db1 = Response (JArr all) 200 /\
    incl some all.
Proof.
  intros db1.
  refine (get_attendance_within_all Sample.course_oid "2024-03-01" db1 _ _).
  reflexivity.
Defined.

Lemma mark_records_non_object_item_run :
  mark_records (JStr Sample.course_oid) (midnight 738946)
    [JNum 5; entry Sample.student_oid (JStr "present") None] Sample.db
    = (Exit (Unhandled TypeError), Sample.db)
  /\
  mark_records (JStr Sample.course_oid) (midnight 738946)
    [JStr "S001"; entry Sample.student_oid (JStr "present") None] Sample.db
    = (Exit (Response (error "Each record must include student_id and status") 400),
       Sample.db).
Proof.
  split.
  - apply (mark_records_non_object_item (JStr Sample.course_oid) (midnight 738946)
             (JNum 5) [entry Sample.student_oid (JStr "present") None] Sample.db).
    + intros members; discriminate.
    + discriminate.
  - apply (mark_records_non_object_item (JStr Sample.course_oid) (midnight 738946)
             (JStr "S001") [entry Sample.student_oid (JStr "present") None] Sample.db).
    + intros members; discriminate.
    + reflexivity.
Defined.

Lemma add_student_rejects_incomplete_run :
  add_student (JArr []) Sample.db = (Response (error "No data provided") 400, Sample.db)
  /\
  add_student
    (JObj [("student_id", JStr "S010"); ("first_name", JStr "Alan");
           ("last_name", JStr ""); ("email", JStr "alan@example.org")]) Sample.db
    = (Response
         (error "Missing required fields: student_id, first_name, last_name, email") 400,
       Sample.db).
Proof.
  pose proof (add_student_rejects_incomplete Sample.db) as (H1 & H2).
  split.
  - apply H1. reflexivity.
  - apply H2; [discriminate | reflexivity].
Defined.

Lemma add_student_then_listed_run :
  exists db',
    add_student (JObj Sample.new_student) Sample.db
      = (Response (JObj (Sample.new_student ++ [("_id", JStr "000000000000000000000002")]))
           201, db') /\
    get_students db' =
      Response (JArr (map with_str_id (students_collection Sample.db) ++
                      [JObj (("_id", JStr "000000000000000000000002") ::
                             Sample.new_student)])) 200.
Proof.
  refine (add_student_then_listed Sample.new_student (JStr "S010") (JStr "alan@example.org")
            Sample.db _ _ _ _ _ _);
    reflexivity.
Defined.

Lemma add_course_rejections_run :
  add_course JNull Sample.db = (Response (error "No data provided") 400, Sample.db)
  /\
  add_course (JObj [("course_code", JStr "CS102")]) Sample.db
    = (Response (error "Missing required fields: course_code, course_name") 400, Sample.db)
  /\
  add_course (JObj [("course_code", JStr "CS101"); ("course_name", JStr "Logic II")]) Sample.db
    = (Response (error "Course with this code already exists") 409, Sample.db).
Proof.
  pose proof (add_course_rejections Sample.db) as (H1 & H2 & H3).
  split; [|split].
  - apply H1. reflexivity.
  - apply H2; [discriminate | reflexivity].
  - eapply (H3 _ (JStr "CS101")); reflexivity.
Defined.

Lemma add_course_then_listed_run :
  exists db',
    add_course (JObj Sample.new_course) Sample.db
      = (Response (JObj (Sample.new_course ++ [("_id", JStr "000000000000000000000002")]))
           201, db') /\
    students_collection db' = students_collection Sample.db /\
    attendance_collection db' = attendance_collection Sample.db /\
    get_courses db' =
      Response (JArr (map with_str_id (courses_collection Sample.db) ++
                      [JObj (("_id", JStr "000000000000000000000002") ::
                             Sample.new_course)])) 200.
Proof.
  refine (add_course_then_listed Sample.new_course (JStr "CS102") Sample.db _ _ _ _);
    reflexivity.
Defined.

Lemma non_object_bodies_run :
  mark_attendance (JArr [JNum 1]) Sample.db
    = (Response (error "Missing required fields: course_id, date, records") 400, Sample.db)
  /\
  add_student (JNum 7) Sample.db = (Unhandled TypeError, Sample.db)
  /\
  add_course (JStr "") Sample.db = (Response (error "No data provided") 400, Sample.db).
Proof.
  split; [|split].
  - destruct (proj1 (non_object_bodies (JArr [JNum 1]) Sample.db
                       ltac:(intros members; discriminate)))
      as [H | [H | H]]; [discriminate H | exact H | discriminate H].
  - destruct (proj1 (proj2 (non_object_bodies (JNum 7) Sample.db
                              ltac:(intros members; discriminate))))
      as [H | [H | H]]; [discriminate H | discriminate H | exact H].
  - destruct (proj2 (proj2 (non_object_bodies (JStr "") Sample.db
                              ltac:(intros members; discriminate))))
      as [H | [H | H]]; [exact H | discriminate H | discriminate H].
Defined.

Lemma created_then_marked_run :
  exists sid cid db1 db2 db3 body,
    add_student (JObj Sample.new_student) Sample.db
      = (Response (JObj (dict_set "_id" (JStr sid) Sample.new_student)) 201, db1) /\
    add_course (JObj Sample.new_course) db1
      = (Response (JObj (dict_set "_id" (JStr cid) Sample.new_course)) 201, db2) /\
    mark_attendance (mark_request cid "2024-03-01" [entry sid (JStr "present") None]) db2
      = (Response body 200, db3).
Proof.
  refine (created_then_marked Sample.new_student Sample.new_course
            (JStr "S010") (JStr "alan@example.org") (JStr "CS102")
            "2024-03-01" 738946 (JStr "present") None Sample.db
            _ _ _ _ _ _ _ _ _ _ _ _ _ _ _ _ _ _ _ _ _);
    try reflexivity; try discriminate; repeat constructor.
Defined.

End MoreRuns.

(** ** Where the format check lets a malformed identifier through *)

Section BlankIdentifiers.

#[local] Existing Instance Reference.platform.

(** C6 (departure of the code).  An entry whose [student_id] is malformed, 24
    characters with blanks among the digits, is not answered with the 400 of
    the format check: [is_valid_objectId] accepts it, the entry goes on to
    the lookup of the student, and the call answers 404 "Student not
    found". *)
Theorem mark_attendance_blank_student_id :
  is_hex24 "00 00 00 00 00 00 00 00 " = false /\
  is_valid_objectId (JStr "00 00 00 00 00 00 00 00 ") = Return true /\
  mark_attendance
    (mark_request Sample.course_oid "2024-03-01"
       [entry "00 00 00 00 00 00 00 00 " (JStr "present") None]) Sample.db
    = (Response (error "Student not found: 00 00 00 00 00 00 00 00 ") 404, Sample.db).
Proof.
  split; [reflexivity|]. split; reflexivity.
Qed.

(** C7 (departure of the code).  A [course_id] that is malformed, 24
    characters with blanks among the digits, is not answered 400: with a
    date that parses the route answers 200 with a list, whatever the
    collections hold, and with a date string that does not parse the 400 is
    the one of the date, so the date was checked although the identifier is
    not well formed. *)
Theorem get_attendance_blank_course_id (db : database) :
  is_hex24 "00 00 00 00 00 00 00 00 " = false /\
  (exists listed,
      get_attendance_by_course_and_date "00 00 00 00 00 00 00 00 " "2024-03-01" db
        = Response (JArr listed) 200) /\
  get_attendance_by_course_and_date "00 00 00 00 00 00 00 00 " "13 Jan" db
    = Response (error "Invalid date format. Use YYYY-MM-DD") 400.
Proof.
  split; [reflexivity|]. split; [|reflexivity].
  eexists. reflexivity.
Qed.

End BlankIdentifiers.
